(** * EasyBuild: packaging utilities and system probes

    A shallow embedding of two modules of the EasyBuild framework,

    - [easybuild/tools/systemtools.py]  (module [SystemTools] below), and
    - [easybuild/tools/package/utilities.py]  (module [PackageUtilities]),

    together with the small part of the Python 2 runtime they rely on
    (module [Py]: exceptions and [try], [str] methods, [repr], [int],
    dictionaries).

    Python functions that only read the machine are functions of a record
    of probe results ([Host]); functions that change the process (working
    directory, singleton cache, subprocesses) are written in a state and
    exception monad over an explicit process state.  Calls to the logger
    at levels [info] and [debug] have no effect on control flow and are
    left out; the one logger call that gates execution
    ([_log.experimental]) is kept. *)

From Stdlib Require Import ZArith Ascii String List Lia.
From stdpp Require Import base gmap strings list.

Local Open Scope Z_scope.

(** ** The fragment of Python 2 used by the two modules *)

Module Py.

(** Exceptions, by class.  Each carries [str(err)].  For
    [EasyBuildError(msg, *args)] and [SystemToolsException(msg % args)]
    that is the format string with each [%s] replaced by [str] of its
    argument; the messages are written out that way below. *)
Inductive exn : Type :=
| EasyBuildError (msg : string)
| SystemToolsException (msg : string)
| OSError (msg : string)
| IOError (msg : string)
| AttributeError (msg : string)
| NameError (msg : string)
| TypeError (msg : string)
| ValueError (msg : string)
| ImportError (msg : string)
| NotImplementedError (msg : string)
| KeyError (msg : string).

(** Outcome of evaluating an expression: a value or a raised exception. *)
Inductive result (A : Type) : Type :=
| Return (a : A)
| Raise (e : exn).
Arguments Return {A} a.
Arguments Raise {A} e.

(** [str(err)] *)
Definition str_of_exn (e : exn) : string :=
  match e with
  | EasyBuildError m | SystemToolsException m | OSError m | IOError m
  | AttributeError m | NameError m | TypeError m | ValueError m
  | ImportError m | NotImplementedError m | KeyError m => m
  end.

(** Exception classes, to compare the kind of two errors. *)
Inductive exn_class : Type :=
| CEasyBuildError | CSystemToolsException | COSError | CIOError
| CAttributeError | CNameError | CTypeError | CValueError
| CImportError | CNotImplementedError | CKeyError.

#[global] Instance exn_class_eq_dec : EqDecision exn_class.
Proof. solve_decision. Defined.

Definition class_of (e : exn) : exn_class :=
  match e with
  | EasyBuildError _ => CEasyBuildError
  | SystemToolsException _ => CSystemToolsException
  | OSError _ => COSError
  | IOError _ => CIOError
  | AttributeError _ => CAttributeError
  | NameError _ => CNameError
  | TypeError _ => CTypeError
  | ValueError _ => CValueError
  | ImportError _ => CImportError
  | NotImplementedError _ => CNotImplementedError
  | KeyError _ => CKeyError
  end.

(** Sequencing: an exception ends the evaluation. *)
#[global] Instance result_ret : MRet result := fun _ a => Return a.
#[global] Instance result_bind : MBind result :=
  fun _ _ k r => match r with Return a => k a | Raise e => Raise e end.

(** The exception classes found by name in the builtins; any other name
    is unbound and looking it up raises [NameError]. *)
Definition builtin_exception (name : string) : result exn_class :=
  if String.eqb name "OSError" then Return COSError
  else if String.eqb name "IOError" then Return CIOError
  else if String.eqb name "AttributeError" then Return CAttributeError
  else if String.eqb name "NameError" then Return CNameError
  else if String.eqb name "TypeError" then Return CTypeError
  else if String.eqb name "ValueError" then Return CValueError
  else if String.eqb name "ImportError" then Return CImportError
  else if String.eqb name "NotImplementedError" then Return CNotImplementedError
  else if String.eqb name "KeyError" then Return CKeyError
  else Raise (NameError ("global name '" +:+ name +:+ "' is not defined")).

(** [try: body / except <name>: handler].  The class expression of the
    [except] clause is evaluated only once [body] has raised; when that
    evaluation raises, its exception replaces the one of [body]. *)
Definition try_except {A} (body : result A) (name : string)
    (handler : exn -> result A) : result A :=
  match body with
  | Return a => Return a
  | Raise e =>
      c ← builtin_exception name;
      if bool_decide (class_of e = c) then handler e else Raise e
  end.

(** A [try] block of a function that either returns from the function
    ([Some]), or is left ([None]) normally or through [except ...: pass]
    for one of the classes listed. *)
Definition try_pass {A} (body : result (option A)) (classes : list exn_class)
    : result (option A) :=
  match body with
  | Return o => Return o
  | Raise e => if bool_decide (class_of e ∈ classes) then Return None else Raise e
  end.

(** Run [block]; continue with [rest] unless the block returned from the
    function or raised. *)
Definition or_else {A} (block : result (option A)) (rest : result A) : result A :=
  match block with
  | Return (Some a) => Return a
  | Return None => rest
  | Raise e => Raise e
  end.

(** *** [str] methods *)

(** [c.lower()] for one byte: only A-Z change. *)
Definition lower_ascii (c : ascii) : ascii :=
  let n := nat_of_ascii c in
  if ((65 <=? n) && (n <=? 90))%nat then ascii_of_nat (n + 32) else c.

(** [s.lower()] *)
Fixpoint lower (s : string) : string :=
  match s with
  | EmptyString => EmptyString
  | String c s' => String (lower_ascii c) (lower s')
  end.

(** [c.isspace()]: space, tab, newline, vertical tab, form feed, return. *)
Definition isspace (c : ascii) : bool :=
  let n := nat_of_ascii c in
  ((n =? 32) || ((9 <=? n) && (n <=? 13)))%nat.

(** [s.lstrip()] *)
Fixpoint lstrip (s : string) : string :=
  match s with
  | EmptyString => EmptyString
  | String c s' => if isspace c then lstrip s' else s
  end.

(** [s.rstrip()] *)
Fixpoint rstrip (s : string) : string :=
  match s with
  | EmptyString => EmptyString
  | String c s' =>
      match rstrip s' with
      | EmptyString => if isspace c then EmptyString else String c EmptyString
      | r => String c r
      end
  end.

(** [s.strip()] *)
Definition strip (s : string) : string := rstrip (lstrip s).

(** [s.startswith(p)] for a [str] argument. *)
Fixpoint startswith (s p : string) {struct p} : bool :=
  match p, s with
  | EmptyString, _ => true
  | String _ _, EmptyString => false
  | String a p', String b s' => if Ascii.eqb a b then startswith s' p' else false
  end.

(** [s.split(sep)] for a separator of one character: always at least one
    field. *)
Fixpoint split (sep : ascii) (s : string) : list string :=
  match s with
  | EmptyString => [EmptyString]
  | String c s' =>
      if Ascii.eqb c sep then EmptyString :: split sep s'
      else match split sep s' with
           | h :: t => String c h :: t
           | [] => [String c EmptyString]
           end
  end.

(** [s.count(sub)]: the number of non-overlapping occurrences of [sub],
    scanning from the left.  [skip] is the number of characters still
    covered by the occurrence found last. *)
Fixpoint count_from (skip : nat) (sub s : string) : nat :=
  match s with
  | EmptyString =>
      match sub with EmptyString => 1 | _ => 0 end
  | String _ s' =>
      match skip with
      | S k => count_from k sub s'
      | O => if startswith s sub
             then S (count_from (Nat.pred (String.length sub)) sub s')
             else count_from O sub s'
      end
  end%nat.

Definition count (s sub : string) : nat := count_from O sub s.

(** [sub in s] *)
Fixpoint contains (s sub : string) : bool :=
  startswith s sub ||
  match s with
  | EmptyString => false
  | String _ s' => contains s' sub
  end.

(** [s.endswith(suffix)] *)
Fixpoint endswith (s suffix : string) : bool :=
  String.eqb s suffix ||
  match s with
  | EmptyString => false
  | String _ s' => endswith s' suffix
  end.

(** [sep.join(l)] *)
Fixpoint join (sep : string) (l : list string) : string :=
  match l with
  | [] => EmptyString
  | [x] => x
  | x :: rest => x +:+ sep +:+ join sep rest
  end.

(** [len(s) > 0], the truth value of a string. *)
Definition truthy (s : string) : bool :=
  match s with EmptyString => false | _ => true end.

(** *** [repr] of a [str] and of a list of [str] *)

Definition hex_digit (n : nat) : ascii :=
  ascii_of_nat (if (n <? 10)%nat then 48 + n else 87 + n).

Fixpoint mem_ascii (c : ascii) (s : string) : bool :=
  match s with
  | EmptyString => false
  | String d s' => Ascii.eqb c d || mem_ascii c s'
  end.

(** The quote [repr] chooses: a double quote only when the string has a
    single quote and no double quote. *)
Definition repr_quote (s : string) : ascii :=
  if mem_ascii "'"%char s && negb (mem_ascii "034"%char s)
  then "034"%char else "'"%char.

Definition repr_char (q c : ascii) : string :=
  let n := nat_of_ascii c in
  if Ascii.eqb c q || Ascii.eqb c "\"%char
  then String "\"%char (String c EmptyString)
  else if (n =? 9)%nat then "\t"
  else if (n =? 10)%nat then "\n"
  else if (n =? 13)%nat then "\r"
  else if ((n <? 32) || (127 <=? n))%nat
  then String "\"%char (String "x"%char
         (String (hex_digit (n / 16)) (String (hex_digit (n mod 16)) EmptyString)))
  else String c EmptyString.

Fixpoint repr_body (q : ascii) (s : string) : string :=
  match s with
  | EmptyString => EmptyString
  | String c s' => repr_char q c +:+ repr_body q s'
  end.

(** [repr(s)] *)
Definition repr (s : string) : string :=
  let q := repr_quote s in
  String q (repr_body q s +:+ String q EmptyString).

(** Strings that [repr] only puts between single quotes: printable ASCII
    without quote or backslash.  Identifiers, hence class names, are such. *)
Definition plain_char (c : ascii) : bool :=
  let n := nat_of_ascii c in
  ((32 <=? n) && (n <? 127))%nat
  && negb (Ascii.eqb c "'"%char) && negb (Ascii.eqb c "\"%char).

Fixpoint plain (s : string) : bool :=
  match s with
  | EmptyString => true
  | String c s' => plain_char c && plain s'
  end.

(** [str(l)] for a list of [str], as [%s] prints it. *)
Definition str_of_list (l : list string) : string :=
  "[" +:+ join ", " (repr <$> l) +:+ "]".

(** *** Dictionaries with [str] keys *)

(** [d.keys()] *)
Definition keys {A} (d : gmap string A) : list string := (map_to_list d).*1.

(** [d[k]] *)
Definition getitem {A} (d : gmap string A) (k : string) : result A :=
  match d !! k with
  | Some v => Return v
  | None => Raise (KeyError (repr k))
  end.

(** [d.get(k, default)] *)
Definition get {A} (d : gmap string A) (k : string) (default : A) : A :=
  match d !! k with
  | Some v => v
  | None => default
  end.

(** [dict(pairs)]: a later pair replaces an earlier one with the same key. *)
Definition dict {A} (pairs : list (string * A)) : gmap string A :=
  fold_left (fun d kv => <[kv.1 := kv.2]> d) pairs ∅.

(** *** Values that are a [str] or a list of [str] *)

Inductive value : Type :=
| VStr (s : string)
| VList (l : list string).

(** [self.startswith(arg)]: lists have no such attribute, and a [str]
    takes a [str] prefix. *)
Definition call_startswith (self arg : value) : result bool :=
  match self with
  | VList _ => Raise (AttributeError "'list' object has no attribute 'startswith'")
  | VStr s =>
      match arg with
      | VStr p => Return (startswith s p)
      | VList _ => Raise (TypeError "expected a character buffer object")
      end
  end.

(** *** [int(s)] for a decimal literal *)

Definition digit (c : ascii) : option Z :=
  let n := nat_of_ascii c in
  if ((48 <=? n) && (n <=? 57))%nat then Some (Z.of_nat (n - 48)) else None.

Fixpoint digits (acc : Z) (s : string) : option Z :=
  match s with
  | EmptyString => Some acc
  | String c s' =>
      match digit c with
      | Some d => digits (10 * acc + d) s'
      | None => None
      end
  end.

Definition int (s : string) : result Z :=
  let invalid :=
    Raise (ValueError ("invalid literal for int() with base 10: " +:+ repr s)) in
  let t := strip s in
  let '(sign, body) :=
    match t with
    | String "-"%char r => (-1, r)
    | String "+"%char r => (1, r)
    | _ => (1, t)
    end in
  match body with
  | EmptyString => invalid
  | _ => match digits 0 body with
         | Some v => Return (sign * v)
         | None => invalid
         end
  end.

(** *** [multiprocessing.cpu_count()]

    The standard library's function, given the number [num] the platform
    reports (0 when it cannot tell): the number when it is at least 1,
    [NotImplementedError] otherwise. *)
Definition cpu_count (num : Z) : result Z :=
  if 1 <=? num then Return num
  else Raise (NotImplementedError "cannot determine number of cpus").

(** *** Regular expressions

    The part of [re] that the patterns of the probes use: a pattern is a
    sequence of literal characters, of greedy repetitions of a character
    class ([\s+], [\s*], [\S+], [.+]), one of which is the named group,
    and of the anchors [^] and [$] under [re.M].  Matching backtracks as
    [re] does: a repetition first takes as many characters as it can and
    gives them back one by one while the rest of the pattern fails. *)

Inductive re_item : Type :=
| Chars (lit : string)
| Many (min : nat) (cls : ascii -> bool) (group : bool)
| Bol
| Eol.

(** [\s] is [isspace]; [\S] and [.] are: *)
Definition nonspace (c : ascii) : bool := negb (isspace c).
Definition dot (c : ascii) : bool := negb (Ascii.eqb c "010"%char).

(** [^] with [re.M]: at the start of the text or after a newline.  [prev]
    is the character before the position. *)
Definition at_bol (prev : option ascii) : bool :=
  match prev with
  | None => true
  | Some c => Ascii.eqb c "010"%char
  end.

(** [$] with [re.M]: at the end of the text or before a newline. *)
Definition at_eol (rest : string) : bool :=
  match rest with
  | EmptyString => true
  | String c _ => Ascii.eqb c "010"%char
  end.

(** Literal characters: what is left of the text, and the character before
    it. *)
Fixpoint match_chars (lit : string) (prev : option ascii) (rest : string)
    : option (option ascii * string) :=
  match lit with
  | EmptyString => Some (prev, rest)
  | String a lit' =>
      match rest with
      | String c rest' =>
          if Ascii.eqb a c then match_chars lit' (Some c) rest' else None
      | EmptyString => None
      end
  end.

(** A greedy repetition followed by the rest of the pattern [k]: [n]
    characters, [taken], are consumed so far.  One more is tried first;
    when that fails the repetition stops here, provided it has [min]
    characters. *)
Fixpoint many (k : string -> option ascii -> string -> option string)
    (min : nat) (cls : ascii -> bool) (n : nat) (taken : string)
    (prev : option ascii) (rest : string) {struct rest} : option string :=
  let stop := if (min <=? n)%nat then k taken prev rest else None in
  match rest with
  | String c rest' =>
      if cls c
      then match many k min cls (S n) (taken +:+ String c EmptyString) (Some c) rest' with
           | Some group => Some group
           | None => stop
           end
      else stop
  | EmptyString => stop
  end.

(** Match the pattern at the position; the result is the text of the
    group. *)
Fixpoint match_items (items : list re_item) (group : string)
    (prev : option ascii) (rest : string) {struct items} : option string :=
  match items with
  | [] => Some group
  | Chars lit :: items' =>
      match match_chars lit prev rest with
      | Some (prev', rest') => match_items items' group prev' rest'
      | None => None
      end
  | Many min cls grp :: items' =>
      many (fun taken prev' rest' =>
              match_items items' (if grp then taken else group) prev' rest')
           min cls 0 EmptyString prev rest
  | Bol :: items' => if at_bol prev then match_items items' group prev rest else None
  | Eol :: items' => if at_eol rest then match_items items' group prev rest else None
  end.

(** The leftmost match at or after the position. *)
Fixpoint search_from (items : list re_item) (prev : option ascii) (rest : string)
    : option string :=
  match match_items items EmptyString prev rest with
  | Some group => Some group
  | None =>
      match rest with
      | EmptyString => None
      | String c rest' => search_from items (Some c) rest'
      end
  end.

(** [regexp.search(text)]: [None] without a match, else the group. *)
Definition search (regexp : list re_item) (text : string) : option string :=
  search_from regexp None text.

(** [match.groupdict()[name]] for what [search] returned. *)
Definition groupdict_get (m : option string) : result string :=
  match m with
  | Some group => Return group
  | None => Raise (AttributeError "'NoneType' object has no attribute 'groupdict'")
  end.

(** Every character of the string is in the class. *)
Fixpoint all_chars (cls : ascii -> bool) (s : string) : bool :=
  match s with
  | EmptyString => true
  | String c s' => cls c && all_chars cls s'
  end.

(** The text is made of complete lines: it is empty or ends in a newline. *)
Definition ends_line (s : string) : bool :=
  match s with
  | EmptyString => true
  | _ => endswith s (String "010"%char EmptyString)
  end.

End Py.

Import Py.


(** ** [easybuild/tools/systemtools.py]

    The probes of the core count, the system type, the extension of shared
    libraries, the platform name and the distribution name and version.
    [get_kernel_name], deprecated in the source, is not embedded. *)

Module SystemTools.

(** What the machine answers when probed.  Every function of the module
    reads the machine and changes nothing. *)
Record Host : Type := {
  (** [multiprocessing]: [None] when the module cannot be imported,
      otherwise the number of CPUs the platform reports to
      [cpu_count()]. *)
  multiprocessing : option Z;
  (** [os.sysconf(name)] *)
  os_sysconf : string -> result Z;
  (** [open(path).read()] *)
  open_read : string -> result string;
  (** [run_cmd(cmd)] of [easybuild.tools.filetools]: output and exit code. *)
  run_cmd : string -> result (string * Z);
  (** [platform.system()], [platform.release()], [platform.machine()] *)
  platform_system : string;
  platform_release : string;
  platform_machine : string;
  (** [platform.linux_distribution()]; [None] where the attribute does
      not exist (it was added in Python 2.6). *)
  platform_linux_distribution : option (string * string * string);
  (** [platform.dist()] *)
  platform_dist : string * string * string;
  (** [platform.uname()[2]] *)
  platform_uname_release : string
}.

Definition INTEL : string := "Intel".
Definition AMD : string := "AMD".

(** The text searched for in [/proc/cpuinfo]: the word, a tab, a colon. *)
Definition processor_tab_colon : string :=
  "processor" +:+ String "009"%char ":".

(** *** [get_core_count] *)

(** The four sources, each a [try] block of [get_core_count]. *)

(** Python 2.6+ *)
Definition core_count_native (h : Host) : result (option Z) :=
  try_pass
    (match multiprocessing h with
     | None => Raise (ImportError "No module named multiprocessing")
     | Some num => n ← cpu_count num; Return (Some n)
     end)
    [CImportError; CNotImplementedError].

(** POSIX *)
Definition core_count_posix (h : Host) : result (option Z) :=
  try_pass
    (cores ← os_sysconf h "SC_NPROCESSORS_ONLN";
     if 0 <? cores then Return (Some cores) else Return None)
    [CAttributeError; CValueError].

(** Linux *)
Definition core_count_linux (h : Host) : result (option Z) :=
  try_pass
    (txt ← open_read h "/proc/cpuinfo";
     let res := Z.of_nat (count txt processor_tab_colon) in
     if 0 <? res then Return (Some res) else Return None)
    [CIOError].

(** BSD *)
Definition core_count_bsd (h : Host) : result (option Z) :=
  try_pass
    ('(out, _) ← run_cmd h "sysctl -n hw.ncpu";
     cores ← int out;
     if 0 <? cores then Return (Some cores) else Return None)
    [CValueError].

Definition get_core_count (h : Host) : result Z :=
  or_else (core_count_native h) (
  or_else (core_count_posix h) (
  or_else (core_count_linux h) (
  or_else (core_count_bsd h) (
  Raise (SystemToolsException "Can not determine number of cores on this system"))))).

(** The libraries behind the probes do not know [SystemToolsException],
    the class this module defines: what they raise is of another class. *)
Definition foreign {A} (r : result A) : Prop :=
  ∀ e, r = Raise e → class_of e ≠ CSystemToolsException.

Definition libraries_foreign (h : Host) : Prop :=
  foreign (os_sysconf h "SC_NPROCESSORS_ONLN") ∧
  foreign (open_read h "/proc/cpuinfo") ∧
  foreign (run_cmd h "sysctl -n hw.ncpu").

(** *** [get_system_type] *)

Definition get_system_type (h : Host) : result string :=
  let system_type := platform_system h in
  if (0 <? String.length system_type)%nat then Return system_type
  else Raise (SystemToolsException
                "Failed to determine system name using platform.system().").

(** *** [get_shared_lib_ext] *)

Definition shared_lib_exts : gmap string string :=
  dict [("Linux", "so"); ("Darwin", "dylib")].

Definition get_shared_lib_ext (h : Host) : result string :=
  system_type ← get_system_type h;
  if bool_decide (system_type ∈ keys shared_lib_exts)
  then getitem shared_lib_exts system_type
  else Raise (SystemToolsException
                ("Unable to determine extention for shared libraries,"
                 +:+ "unknown system name: " +:+ system_type)).

(** *** [get_platform_name] *)

Definition get_platform_name (withversion : bool) (h : Host) : result string :=
  system_type ← get_system_type h;
  let release := platform_release h in
  let machine := platform_machine h in
  '(vendor, release) ←
    (if String.eqb system_type "Linux" then Return ("unknown", "-gnu")
     else if String.eqb system_type "Darwin" then Return ("apple", release)
     else Raise (SystemToolsException
                   ("Failed to determine platform name, unknown system name: "
                    +:+ system_type)));
  let platform_name :=
    if withversion
    then machine +:+ "-" +:+ vendor +:+ "-" +:+ lower system_type +:+ release
    else machine +:+ "-" +:+ vendor +:+ "-" +:+ lower system_type in
  Return platform_name.

(** *** [get_system_name] *)

Definition system_name_map : gmap string string :=
  dict [("red hat enterprise linux server", "RHEL");
        ("scientific linux sl", "SL");
        ("scientific linux", "SL")].

(** [platform.linux_distribution()[0].strip().lower()] *)
Definition linux_distribution_name (h : Host) : result string :=
  match platform_linux_distribution h with
  | Some d => Return (lower (strip d.1.1))
  | None => Raise (AttributeError
                     "'module' object has no attribute 'linux_distribution'")
  end.

(** The source spells the class of its [except] clause [AttributeErrror]. *)
Definition get_system_name (h : Host) : result string :=
  system_name ←
    try_except (linux_distribution_name h) "AttributeErrror"
      (fun err => Return (lower (strip (platform_dist h).1.1)));
  if truthy system_name
  then Return (get system_name_map system_name system_name)
  else Return "UNKNOWN_SYSTEM_NAME".

(** *** [get_system_version] *)

Definition get_system_version (h : Host) : result string :=
  let system_version := (platform_dist h).1.2 in
  if truthy system_version then
    name ← get_system_name h;
    system_version ←
      (if String.eqb name "suse" then
         if String.eqb system_version "11" then
           let kernel_version := VList (split "."%char (platform_uname_release h)) in
           suff ←
             (sp0 ← call_startswith kernel_version (VList ["2"; "6"; "27"]);
              if sp0 : bool then Return ""
              else
                sp1 ← call_startswith kernel_version (VList ["2"; "6"; "32"]);
                if sp1 : bool then Return "_SP1"
                else
                  sp2 ← call_startswith kernel_version (VList ["3"; "0"]);
                  if sp2 : bool then Return "_SP2"
                  else Return "_UNKNOWN_SP");
           Return (system_version +:+ suff)
         else Return system_version
       else Return system_version);
    Return system_version
  else Return "UNKNOWN_SYSTEM_VERSION".

(** *** [get_cpu_vendor] *)

(** [^vendor_id\s+:\s*(?P<vendorid>\S+)\s*$] with [re.M] *)
Definition vendor_id_regexp : list re_item :=
  [Bol; Chars "vendor_id"; Many 1 isspace false; Chars ":"; Many 0 isspace false;
   Many 1 nonspace true; Many 0 isspace false; Eol].

Definition VENDORS : gmap string string :=
  dict [("GenuineIntel", INTEL); ("AuthenticAMD", AMD)].

(** Linux *)
Definition cpu_vendor_linux (h : Host) : result (option string) :=
  try_pass
    (txt ← open_read h "/proc/cpuinfo";
     arch ← groupdict_get (search vendor_id_regexp txt);
     if bool_decide (is_Some (VENDORS !! arch))
     then vendor ← getitem VENDORS arch; Return (Some vendor)
     else Return None)
    [CIOError].

(** [s.split(' ')[0]]: [split] gives at least one field. *)
Definition first_field (s : string) : string :=
  match split " "%char s with
  | field :: _ => field
  | [] => EmptyString
  end.

Definition get_cpu_vendor (h : Host) : result string :=
  or_else (cpu_vendor_linux h) (
    (* Darwin (OS X) *)
    '(out, exitcode) ← run_cmd h "sysctl -n machdep.cpu.vendor";
    let out := strip out in
    if (exitcode =? 0) && truthy out && bool_decide (is_Some (VENDORS !! out))
    then getitem VENDORS out
    else
      (* BSD *)
      '(out, exitcode) ← run_cmd h "sysctl -n hw.model";
      let out := strip out in
      if (exitcode =? 0) && truthy out
      then Return (first_field out)
      else Raise (SystemToolsException "Could not detect cpu vendor")).

(** *** [get_cpu_model] *)

(** [^model name\s+:\s*(?P<modelname>.+)\s*$] with [re.M] *)
Definition model_name_regexp : list re_item :=
  [Bol; Chars "model name"; Many 1 isspace false; Chars ":"; Many 0 isspace false;
   Many 1 dot true; Many 0 isspace false; Eol].

(** linux *)
Definition cpu_model_linux (h : Host) : result (option string) :=
  try_pass
    (txt ← open_read h "/proc/cpuinfo";
     modelname ← groupdict_get (search model_name_regexp txt);
     Return (Some (strip modelname)))
    [CIOError].

Definition get_cpu_model (h : Host) : result string :=
  or_else (cpu_model_linux h) (
    (* osX *)
    '(out, exitcode) ← run_cmd h "sysctl -n machdep.cpu.brand_string";
    let out := strip out in
    if exitcode =? 0 then Return out
    else Return "UNKNOWN").

End SystemTools.

(** ** [easybuild/tools/package/utilities.py] *)

Module PackageUtilities.

Definition DEFAULT_PNS : string := "EasyBuildPNS".
Definition PKG_TOOL_FPM : string := "fpm".
Definition PKG_TYPE_RPM : string := "rpm".

Section Packaging.

(** Build descriptors: an easyconfig ([easyblock.cfg]) or a dependency
    dictionary; the module only hands them to the naming scheme. *)
Context {EC : Type}.

(** A subclass of [PackageNamingScheme], which is also its only
    instance: the constructor takes no argument. *)
Record PackageNamingScheme : Type := {
  pns_name : EC -> string;
  pns_version : EC -> string;
  pns_release : string
}.

(** The part of an easyblock that packaging reads. *)
Record EasyBlock : Type := {
  cfg : EC;                          (* easyblock.cfg *)
  cfg_dependencies : list EC;        (* easyblock.cfg.dependencies() *)
  toolchain_name : string;           (* easyblock.toolchain.name *)
  toolchain_as_dict : EC;            (* easyblock.toolchain.as_dict() *)
  installdir : string;               (* easyblock.installdir *)
  module_generator_filename : string (* easyblock.module_generator.filename *)
}.

(** The names the module imports, and the operating system behind them. *)
Record Env : Type := {
  (** [build_option('package_tool')], [build_option('package_type')] *)
  package_tool : string;
  package_type : string;
  (** [get_package_naming_scheme()] *)
  get_package_naming_scheme : string;
  (** [DUMMY_TOOLCHAIN_NAME] of [easybuild.tools.toolchain] *)
  DUMMY_TOOLCHAIN_NAME : string;
  (** [get_subclasses(PackageNamingScheme)], once the modules of the
      naming scheme namespace are imported: class name and class. *)
  get_subclasses : list (string * PackageNamingScheme);
  (** [_log.experimental(msg)]: the logger's gate for functionality
      that requires [--experimental]. *)
  log_experimental : string -> result unit;
  (** [which(cmd)]: the path of [cmd] on PATH, or [None]. *)
  which : string -> option string;
  (** [tempfile.mkdtemp(prefix=...)] *)
  mkdtemp : string -> result string;
  (** [os.chdir(path)] *)
  os_chdir : string -> result unit;
  (** [run_cmd(cmd, log_all=True, simple=True)] of [easybuild.tools.run] *)
  run_cmd : string -> result bool
}.

(** [ActivePNS]: the wrapper holding the selected naming scheme. *)
Record ActivePNS : Type := { pns : PackageNamingScheme }.

(** The state of the process that the module changes. *)
Record State : Type := {
  (** the working directory of the process *)
  cwd : string;
  (** the instance the [Singleton] metaclass keeps for [ActivePNS] *)
  instance : option ActivePNS;
  (** the commands handed to [run_cmd], oldest first *)
  commands : list string
}.

(** Computations that change the process state and may raise; the
    state reached when an exception is raised is kept. *)
Definition M (A : Type) : Type := State -> result A * State.

Definition ret {A} (a : A) : M A := fun st => (Return a, st).

Definition bind {A B} (m : M A) (k : A -> M B) : M B :=
  fun st =>
    match m st with
    | (Return a, st') => k a st'
    | (Raise e, st') => (Raise e, st')
    end.

Definition raise {A} (e : exn) : M A := fun st => (Raise e, st).

(** An expression that does not touch the state. *)
Definition pure {A} (r : result A) : M A := fun st => (r, st).

Variable env : Env.

(** *** [avail_package_naming_schemes] *)

Definition avail_package_naming_schemes : gmap string PackageNamingScheme :=
  let class_dict := dict (get_subclasses env) in
  class_dict.

(** *** [ActivePNS] *)

Definition ActivePNS_init : result ActivePNS :=
  let avail_pns := avail_package_naming_schemes in
  let sel_pns := get_package_naming_scheme env in
  if bool_decide (is_Some (avail_pns !! sel_pns))
  then cls ← getitem avail_pns sel_pns; Return {| pns := cls |}
  else Raise (EasyBuildError
                ("Selected package naming scheme " +:+ sel_pns
                 +:+ " could not be found in " +:+ str_of_list (keys avail_pns))).

(** Modelled from the spec: the [Singleton] metaclass of
    [vsc.utils.patterns] is not part of the sources.  One instance
    exists per process; it is created on the first call, and later
    calls return the cached instance without discovery.  A constructor
    that raises leaves the cache empty. *)
Definition ActivePNS_call : M ActivePNS :=
  fun st =>
    match instance st with
    | Some self => (Return self, st)
    | None =>
        match ActivePNS_init with
        | Return self =>
            (Return self,
             {| cwd := cwd st; instance := Some self; commands := commands st |})
        | Raise e => (Raise e, st)
        end
    end.

Definition name (self : ActivePNS) (ec : EC) : string :=
  let name := pns_name (pns self) ec in
  name.

Definition version (self : ActivePNS) (ec : EC) : string :=
  let version := pns_version (pns self) ec in
  version.

Definition release (self : ActivePNS) (ec : EC) : string :=
  let release := pns_release (pns self) in
  release.

(** *** [package_with_fpm] *)

(** [try: os.chdir(workdir) / except OSError, err: raise EasyBuildError(...)] *)
Definition chdir_workdir (workdir : string) : M unit :=
  fun st =>
    match os_chdir env workdir with
    | Return _ =>
        (Return tt,
         {| cwd := workdir; instance := instance st; commands := commands st |})
    | Raise (OSError err) =>
        (Raise (EasyBuildError
                  ("Failed to chdir into workdir " +:+ workdir +:+ ": " +:+ err)),
         st)
    | Raise e => (Raise e, st)
    end.

(** The call of [run_cmd]: the command is handed over, then the
    subprocess decides the outcome. *)
Definition do_run_cmd (cmd : string) : M bool :=
  fun st =>
    (run_cmd env cmd,
     {| cwd := cwd st; instance := instance st; commands := commands st ++ [cmd] |}).

(** The dependencies to package: the toolchain unless it is the dummy
    one, then the declared dependencies. *)
Definition package_deps (easyblock : EasyBlock) : list EC :=
  let deps := [] in
  let deps :=
    if negb (String.eqb (toolchain_name easyblock) (DUMMY_TOOLCHAIN_NAME env))
    then deps ++ [toolchain_as_dict easyblock]
    else deps in
  let deps := deps ++ cfg_dependencies easyblock in
  deps.

(** The loop [for dep in deps: depstring += " --depends '%s'" % ...]. *)
Definition depends_string (package_naming_scheme : ActivePNS) (deps : list EC)
    : string :=
  fold_left
    (fun depstring dep =>
       let dep_pkgname := name package_naming_scheme dep in
       depstring +:+ (" --depends '" +:+ dep_pkgname +:+ "'"))
    deps "".

Definition package_with_fpm (easyblock : EasyBlock) : M string :=
  bind (pure (mkdtemp env "eb-pkgs-")) (fun workdir =>
  let pkgtype := package_type env in
  bind (chdir_workdir workdir) (fun _ =>
  bind ActivePNS_call (fun package_naming_scheme =>
  let pkgname := name package_naming_scheme (cfg easyblock) in
  let pkgver := version package_naming_scheme (cfg easyblock) in
  let pkgrel := release package_naming_scheme (cfg easyblock) in
  let deps := package_deps easyblock in
  let depstring := depends_string package_naming_scheme deps in
  let cmdlist := [
    PKG_TOOL_FPM;
    "--workdir"; workdir;
    "--name"; pkgname;
    "--provides"; pkgname;
    "-t"; pkgtype;
    "-s"; "dir";
    "--version"; pkgver;
    "--iteration"; pkgrel;
    depstring;
    installdir easyblock;
    module_generator_filename easyblock
  ] in
  let cmd := join " " cmdlist in
  bind (do_run_cmd cmd) (fun _ =>
  ret workdir)))).

(** *** [package] *)

Definition package (easyblock : EasyBlock) : M string :=
  let pkgtool := package_tool env in
  bind (if String.eqb pkgtool PKG_TOOL_FPM
        then package_with_fpm easyblock
        else raise (EasyBuildError
                      ("Unknown packaging tool specified: " +:+ pkgtool)))
       (fun pkgdir => ret pkgdir).

(** *** [check_pkg_support] *)

(** The truth value of what [which] returns. *)
Definition found (path : option string) : bool :=
  match path with
  | Some p => truthy p
  | None => false
  end.

Definition check_pkg_support : M unit :=
  bind (pure (log_experimental env "Support for packaging installed software."))
    (fun _ =>
  let pkgtool := package_tool env in
  let pkgtool_path := which env pkgtool in
  if found pkgtool_path then
    if String.eqb pkgtool PKG_TOOL_FPM && String.eqb (package_type env) PKG_TYPE_RPM
    then
      let rpmbuild_path := which env "rpmbuild" in
      if found rpmbuild_path then ret tt
      else raise (EasyBuildError
             "rpmbuild is required when generating RPM packages with FPM, but was not found")
    else ret tt
  else raise (EasyBuildError
                ("Selected packaging tool '" +:+ pkgtool +:+ "' not found"))).

End Packaging.

Arguments PackageNamingScheme : clear implicits.
Arguments EasyBlock : clear implicits.
Arguments Env : clear implicits.
Arguments ActivePNS : clear implicits.
Arguments State : clear implicits.

End PackageUtilities.

(** ** Machines and configurations used as examples *)

Module Examples.

Import SystemTools.

Definition newline : string := String "010"%char "".

(** One entry of [/proc/cpuinfo]. *)
Definition cpuinfo_entry (n : string) : string :=
  processor_tab_colon +:+ " " +:+ n +:+ newline
  +:+ "vendor_id" +:+ String "009"%char ": GenuineIntel" +:+ newline
  +:+ newline.

Definition cpuinfo4 : string :=
  cpuinfo_entry "0" +:+ cpuinfo_entry "1" +:+ cpuinfo_entry "2" +:+ cpuinfo_entry "3".

Definition no_such_file (path : string) : result string :=
  Raise (IOError ("[Errno 2] No such file or directory: " +:+ repr path)).

(** A [sysctl] that knows no [hw.ncpu] and prints nothing. *)
Definition no_sysctl (cmd : string) : result (string * Z) :=
  Return ("", 0).

(** A SLES 11 SP1 machine whose Python reports the distribution as SuSE. *)
Definition sles11_sp1 : Host := {|
  multiprocessing := Some 8;
  os_sysconf := fun _ => Return 8;
  open_read := fun path =>
    if String.eqb path "/proc/cpuinfo" then Return cpuinfo4 else no_such_file path;
  run_cmd := no_sysctl;
  platform_system := "Linux";
  platform_release := "2.6.32.12-0.7-default";
  platform_machine := "x86_64";
  platform_linux_distribution := Some ("SuSE", "11", "x86_64");
  platform_dist := ("SuSE", "11", "x86_64");
  platform_uname_release := "2.6.32.12-0.7-default"
|}.

(** A Red Hat machine running Python 2.5: no [multiprocessing], no
    [platform.linux_distribution]. *)
Definition rhel5_python25 : Host := {|
  multiprocessing := None;
  os_sysconf := fun _ => Return 4;
  open_read := fun path =>
    if String.eqb path "/proc/cpuinfo" then Return cpuinfo4 else no_such_file path;
  run_cmd := no_sysctl;
  platform_system := "Linux";
  platform_release := "2.6.18-308.el5";
  platform_machine := "x86_64";
  platform_linux_distribution := None;
  platform_dist := ("redhat", "5.8", "Final");
  platform_uname_release := "2.6.18-308.el5"
|}.

(** A RHEL 6 server. *)
Definition rhel6 : Host := {|
  multiprocessing := Some 16;
  os_sysconf := fun _ => Return 16;
  open_read := fun path =>
    if String.eqb path "/proc/cpuinfo" then Return cpuinfo4 else no_such_file path;
  run_cmd := no_sysctl;
  platform_system := "Linux";
  platform_release := "2.6.32-504.el6.x86_64";
  platform_machine := "x86_64";
  platform_linux_distribution :=
    Some ("Red Hat Enterprise Linux Server", "6.6", "Santiago");
  platform_dist := ("redhat", "6.6", "Santiago");
  platform_uname_release := "2.6.32-504.el6.x86_64"
|}.

(** A container without [multiprocessing] whose [/proc/cpuinfo] shows the
    4 processors granted to it while [sysconf] counts 2 online. *)
Definition container : Host := {|
  multiprocessing := None;
  os_sysconf := fun name =>
    if String.eqb name "SC_NPROCESSORS_ONLN" then Return 2
    else Raise (ValueError "unrecognized configuration name");
  open_read := fun path =>
    if String.eqb path "/proc/cpuinfo" then Return cpuinfo4 else no_such_file path;
  run_cmd := no_sysctl;
  platform_system := "Linux";
  platform_release := "3.10.0";
  platform_machine := "x86_64";
  platform_linux_distribution := Some ("debian", "7.8", "");
  platform_dist := ("debian", "7.8", "");
  platform_uname_release := "3.10.0"
|}.

(** A machine where only [/proc/cpuinfo] tells the number of cores. *)
Definition cpuinfo_only : Host := {|
  multiprocessing := None;
  os_sysconf := fun _ => Raise (ValueError "unrecognized configuration name");
  open_read := fun path =>
    if String.eqb path "/proc/cpuinfo" then Return cpuinfo4 else no_such_file path;
  run_cmd := no_sysctl;
  platform_system := "Linux";
  platform_release := "2.6.18";
  platform_machine := "i686";
  platform_linux_distribution := Some ("debian", "5.0", "");
  platform_dist := ("debian", "5.0", "");
  platform_uname_release := "2.6.18"
|}.

(** A Mac: the core count comes from [sysctl]. *)
Definition mac : Host := {|
  multiprocessing := None;
  os_sysconf := fun _ => Raise (ValueError "unrecognized configuration name");
  open_read := no_such_file;
  run_cmd := fun cmd =>
    if String.eqb cmd "sysctl -n hw.ncpu" then Return ("4" +:+ newline, 0)
    else Return ("", 1);
  platform_system := "Darwin";
  platform_release := "13.4.0";
  platform_machine := "x86_64";
  platform_linux_distribution := Some ("", "", "");
  platform_dist := ("", "", "");
  platform_uname_release := "13.4.0"
|}.

(** A machine on which every source of the core count fails. *)
Definition opaque : Host := {|
  multiprocessing := Some 0;
  os_sysconf := fun _ => Return (-1);
  open_read := no_such_file;
  run_cmd := no_sysctl;
  platform_system := "Java";
  platform_release := "";
  platform_machine := "";
  platform_linux_distribution := Some ("", "", "");
  platform_dist := ("", "", "");
  platform_uname_release := ""
|}.

(** A CentOS 6 machine; the distribution name comes with trailing space
    and capitals. *)
Definition centos6 : Host := {|
  multiprocessing := Some 4;
  os_sysconf := fun _ => Return 4;
  open_read := fun path =>
    if String.eqb path "/proc/cpuinfo" then Return cpuinfo4 else no_such_file path;
  run_cmd := no_sysctl;
  platform_system := "Linux";
  platform_release := "2.6.32-504.el6.x86_64";
  platform_machine := "x86_64";
  platform_linux_distribution := Some ("CentOS ", "6.6", "Final");
  platform_dist := ("centos", "6.6", "Final");
  platform_uname_release := "2.6.32-504.el6.x86_64"
|}.

(** A machine without [multiprocessing] where [sysconf] fails with an
    [OSError], although [/proc/cpuinfo] lists 4 processors. *)
Definition sysconf_broken : Host := {|
  multiprocessing := None;
  os_sysconf := fun _ => Raise (OSError "[Errno 22] Invalid argument");
  open_read := fun path =>
    if String.eqb path "/proc/cpuinfo" then Return cpuinfo4 else no_such_file path;
  run_cmd := no_sysctl;
  platform_system := "Linux";
  platform_release := "2.6.18";
  platform_machine := "x86_64";
  platform_linux_distribution := None;
  platform_dist := ("debian", "5.0", "");
  platform_uname_release := "2.6.18"
|}.

Definition tab : string := String "009"%char "".

(** The [/proc/cpuinfo] of a laptop with one Intel core: the lines before
    the model name, and what follows the vendor id. *)
Definition cpuinfo_i5_before_model : string :=
  "processor" +:+ tab +:+ ": 0" +:+ newline
  +:+ "vendor_id" +:+ tab +:+ ": GenuineIntel" +:+ newline
  +:+ "cpu family" +:+ tab +:+ ": 6" +:+ newline
  +:+ "model" +:+ tab +:+ tab +:+ ": 42" +:+ newline.

Definition cpuinfo_i5_rest : string :=
  newline
  +:+ "cpu family" +:+ tab +:+ ": 6" +:+ newline
  +:+ "model" +:+ tab +:+ tab +:+ ": 42" +:+ newline
  +:+ "model name" +:+ tab +:+ ": Intel(R) Core(TM) i5-2540M CPU @ 2.60GHz  " +:+ newline
  +:+ "stepping" +:+ tab +:+ ": 7" +:+ newline.

Definition cpuinfo_i5 : string :=
  "processor" +:+ tab +:+ ": 0" +:+ newline
  +:+ "vendor_id" +:+ tab +:+ ": GenuineIntel" +:+ cpuinfo_i5_rest.

Definition i5_laptop : Host := {|
  multiprocessing := Some 1;
  os_sysconf := fun _ => Return 1;
  open_read := fun path =>
    if String.eqb path "/proc/cpuinfo" then Return cpuinfo_i5 else no_such_file path;
  run_cmd := no_sysctl;
  platform_system := "Linux";
  platform_release := "3.13.0-24-generic";
  platform_machine := "x86_64";
  platform_linux_distribution := Some ("Ubuntu", "14.04", "trusty");
  platform_dist := ("Ubuntu", "14.04", "trusty");
  platform_uname_release := "3.13.0-24-generic"
|}.

(** An ARM board: its [/proc/cpuinfo] has neither vendor id nor model
    name. *)
Definition cpuinfo_arm : string :=
  "Processor" +:+ tab +:+ ": ARMv7 Processor rev 10 (v7l)" +:+ newline
  +:+ "processor" +:+ tab +:+ ": 0" +:+ newline
  +:+ "BogoMIPS" +:+ tab +:+ ": 790.52" +:+ newline.

Definition arm_board : Host := {|
  multiprocessing := Some 1;
  os_sysconf := fun _ => Return 1;
  open_read := fun path =>
    if String.eqb path "/proc/cpuinfo" then Return cpuinfo_arm else no_such_file path;
  run_cmd := no_sysctl;
  platform_system := "Linux";
  platform_release := "3.0.35";
  platform_machine := "armv7l";
  platform_linux_distribution := Some ("debian", "7.0", "");
  platform_dist := ("debian", "7.0", "");
  platform_uname_release := "3.0.35"
|}.

(** A FreeBSD machine: no [/proc/cpuinfo]; [sysctl] knows [hw.model] and
    answers the [machdep.cpu] names with nothing. *)
Definition freebsd : Host := {|
  multiprocessing := Some 8;
  os_sysconf := fun _ => Return 8;
  open_read := no_such_file;
  run_cmd := fun cmd =>
    if String.eqb cmd "sysctl -n hw.model"
    then Return ("Intel(R) Xeon(R) CPU E5-2670 0 @ 2.60GHz" +:+ newline, 0)
    else Return ("", 0);
  platform_system := "FreeBSD";
  platform_release := "9.1-RELEASE";
  platform_machine := "amd64";
  platform_linux_distribution := Some ("", "", "");
  platform_dist := ("", "", "");
  platform_uname_release := "9.1-RELEASE"
|}.

(** A machine on which every source of the core count fails, with an
    empty [/proc/cpuinfo]. *)
Definition no_proc : Host := {|
  multiprocessing := Some 0;
  os_sysconf := fun _ => Return (-1);
  open_read := fun path => Return "";
  run_cmd := no_sysctl;
  platform_system := "Java";
  platform_release := "";
  platform_machine := "";
  platform_linux_distribution := Some ("", "", "");
  platform_dist := ("", "", "");
  platform_uname_release := ""
|}.

(** *** Packaging *)

Import PackageUtilities.

(** Descriptors for the examples: a name and a version. *)
Definition descriptor : Type := string * string.

(** A naming scheme in the style of the default one. *)
Definition EasyBuildPNS : PackageNamingScheme descriptor := {|
  pns_name := fun ec => ec.1 +:+ "-" +:+ ec.2;
  pns_version := fun ec => "eb-2.2.0";
  pns_release := "1"
|}.

Definition on_path (bins : list string) (cmd : string) : option string :=
  if bool_decide (cmd ∈ bins) then Some ("/usr/bin/" +:+ cmd) else None.

(** A configuration for FPM and RPM, given the selected naming scheme,
    the logger's gate, the programs on PATH and the behaviour of [chdir]
    and of the subprocess. *)
Definition fpm_rpm (sel_pns : string) (gate : string -> result unit)
    (bins : list string) (chdir : string -> result unit)
    (run : string -> result bool) : Env descriptor := {|
  package_tool := "fpm";
  package_type := "rpm";
  get_package_naming_scheme := sel_pns;
  DUMMY_TOOLCHAIN_NAME := "dummy";
  get_subclasses := [("EasyBuildPNS", EasyBuildPNS)];
  log_experimental := gate;
  which := on_path bins;
  mkdtemp := fun prefix => Return ("/tmp/" +:+ prefix +:+ "k3Xq0L");
  os_chdir := chdir;
  run_cmd := run
|}.

Definition experimental_enabled (msg : string) : result unit := Return tt.

Definition experimental_disabled (msg : string) : result unit :=
  Raise (EasyBuildError
           ("Experimental functionality. Behaviour might change/be removed later "
            +:+ "(use --experimental option to enable): " +:+ msg)).

Definition chdir_ok (path : string) : result unit := Return tt.

Definition chdir_denied (path : string) : result unit :=
  Raise (OSError ("[Errno 13] Permission denied: " +:+ repr path)).

Definition run_ok (cmd : string) : result bool := Return true.

Definition run_failed (cmd : string) : result bool :=
  Raise (EasyBuildError ("cmd " +:+ repr cmd +:+ " exited with exitcode 1")).

(** Everything in place. *)
Definition ready : Env descriptor :=
  fpm_rpm "EasyBuildPNS" experimental_enabled ["fpm"; "rpmbuild"] chdir_ok run_ok.

(** FPM is not installed. *)
Definition no_fpm : Env descriptor :=
  fpm_rpm "EasyBuildPNS" experimental_enabled ["rpmbuild"] chdir_ok run_ok.

(** FPM is installed, [rpmbuild] is not. *)
Definition no_rpmbuild : Env descriptor :=
  fpm_rpm "EasyBuildPNS" experimental_enabled ["fpm"] chdir_ok run_ok.

(** FPM is not installed and [--experimental] is not given. *)
Definition no_fpm_not_experimental : Env descriptor :=
  fpm_rpm "EasyBuildPNS" experimental_disabled ["rpmbuild"] chdir_ok run_ok.

(** The work directory cannot be entered. *)
Definition workdir_denied : Env descriptor :=
  fpm_rpm "EasyBuildPNS" experimental_enabled ["fpm"; "rpmbuild"] chdir_denied run_ok.

(** A naming scheme is selected that does not exist. *)
Definition unknown_pns : Env descriptor :=
  fpm_rpm "MyPNS" experimental_enabled ["fpm"; "rpmbuild"] chdir_ok run_ok.

(** A packaging tool is selected that the framework does not know. *)
Definition unknown_tool : Env descriptor := {|
  package_tool := "alien";
  package_type := "deb";
  get_package_naming_scheme := "EasyBuildPNS";
  DUMMY_TOOLCHAIN_NAME := "dummy";
  get_subclasses := [("EasyBuildPNS", EasyBuildPNS)];
  log_experimental := experimental_enabled;
  which := on_path ["alien"];
  mkdtemp := fun prefix => Return ("/tmp/" +:+ prefix +:+ "k3Xq0L");
  os_chdir := chdir_ok;
  run_cmd := run_ok
|}.

(** zlib built with the goolf toolchain, with two dependencies. *)
Definition zlib_goolf : EasyBlock descriptor := {|
  cfg := ("zlib", "1.2.8");
  cfg_dependencies := [("ncurses", "5.9"); ("bzip2", "1.0.6")];
  toolchain_name := "goolf";
  toolchain_as_dict := ("goolf", "1.4.10");
  installdir := "/opt/software/zlib/1.2.8-goolf-1.4.10";
  module_generator_filename := "/opt/modules/all/zlib/1.2.8-goolf-1.4.10"
|}.

(** A binary installation: dummy toolchain, no dependency. *)
Definition java_dummy : EasyBlock descriptor := {|
  cfg := ("Java", "1.7.0_80");
  cfg_dependencies := [];
  toolchain_name := "dummy";
  toolchain_as_dict := ("dummy", "dummy");
  installdir := "/opt/software/Java/1.7.0_80";
  module_generator_filename := "/opt/modules/all/Java/1.7.0_80"
|}.

(** A process that has not packaged anything yet. *)
Definition fresh : State descriptor := {|
  cwd := "/home/easybuild";
  instance := None;
  commands := []
|}.

(** A site naming scheme, in two versions with the same class name. *)
Definition SitePNS_v1 : PackageNamingScheme descriptor := {|
  pns_name := fun ec => "site-" +:+ ec.1;
  pns_version := fun ec => ec.2;
  pns_release := "1"
|}.

Definition SitePNS_v2 : PackageNamingScheme descriptor := {|
  pns_name := fun ec => "site-" +:+ ec.1;
  pns_version := fun ec => ec.2;
  pns_release := "2"
|}.

(** Three classes are discovered, two of them named [SitePNS]. *)
Definition two_schemes : Env descriptor := {|
  package_tool := "fpm";
  package_type := "rpm";
  get_package_naming_scheme := "SitePNS";
  DUMMY_TOOLCHAIN_NAME := "dummy";
  get_subclasses :=
    [("EasyBuildPNS", EasyBuildPNS); ("SitePNS", SitePNS_v1); ("SitePNS", SitePNS_v2)];
  log_experimental := experimental_enabled;
  which := on_path ["fpm"; "rpmbuild"];
  mkdtemp := fun prefix => Return ("/tmp/" +:+ prefix +:+ "k3Xq0L");
  os_chdir := chdir_ok;
  run_cmd := run_ok
|}.

End Examples.

(** ** Facts about the Python fragment *)

Section PyFacts.

Lemma app_nil_r (s : string) : s +:+ "" = s.
Proof. induction s as [|c s IH]; [reflexivity|]. cbv [String.append] in *. fold String.append in *. by rewrite IH. Qed.

Lemma app_assoc (a b c : string) : (a +:+ b) +:+ c = a +:+ (b +:+ c).
Proof.
  induction a as [|x a IH]; [reflexivity|].
  change (String x ((a +:+ b) +:+ c) = String x (a +:+ (b +:+ c))).
  by rewrite IH.
Qed.

Lemma startswith_app (p s : string) : startswith (p +:+ s) p = true.
Proof.
  induction p as [|c p IH]; [reflexivity|].
  change (startswith (String c (p +:+ s)) (String c p) = true).
  cbn [startswith]. by rewrite Ascii.eqb_refl.
Qed.

Lemma contains_here (p s : string) : contains (p +:+ s) p = true.
Proof.
  destruct p as [|c p]; [by destruct s|].
  change (contains (String c (p +:+ s)) (String c p) = true).
  cbn [contains].
  change (String c (p +:+ s)) with (String c p +:+ s).
  by rewrite startswith_app.
Qed.

Lemma contains_refl (s : string) : contains s s = true.
Proof. rewrite <- (app_nil_r s) at 1. apply contains_here. Qed.

Lemma contains_app_r (a s sub : string) :
  contains s sub = true → contains (a +:+ s) sub = true.
Proof.
  intros H. induction a as [|c a IH]; [exact H|].
  change (contains (String c (a +:+ s)) sub = true).
  cbn [contains]. rewrite IH. apply orb_true_r.
Qed.

(** A string contains each piece it is assembled from. *)
Lemma contains_mid (a x b : string) : contains (a +:+ x +:+ b) x = true.
Proof. apply contains_app_r, contains_here. Qed.

Lemma endswith_refl (s : string) : endswith s s = true.
Proof. destruct s; cbn [endswith]; by rewrite String.eqb_refl. Qed.

Lemma endswith_app_r (a s suffix : string) :
  endswith s suffix = true → endswith (a +:+ s) suffix = true.
Proof.
  intros H. induction a as [|c a IH]; [exact H|].
  change (endswith (String c (a +:+ s)) suffix = true).
  cbn [endswith]. rewrite IH. apply orb_true_r.
Qed.

Lemma elem_of_keys {A} (d : gmap string A) (k : string) :
  k ∈ keys d ↔ is_Some (d !! k).
Proof.
  unfold keys. rewrite list_elem_of_fmap. split.
  - intros [[k' v] [-> Hin]]. apply elem_of_map_to_list in Hin. by exists v.
  - intros [v Hv]. exists (k, v). split; [done|]. by apply elem_of_map_to_list.
Qed.

Lemma startswith_app_l (s p b : string) :
  startswith s p = true → startswith (s +:+ b) p = true.
Proof.
  revert s. induction p as [|a p IH]; [done|]. intros [|c s]; [done|].
  change (String c s +:+ b) with (String c (s +:+ b)). cbn [startswith].
  destruct (Ascii.eqb a c); [apply IH|done].
Qed.

Lemma contains_app_l (s b sub : string) :
  contains s sub = true → contains (s +:+ b) sub = true.
Proof.
  induction s as [|c s IH].
  - cbn [contains]. rewrite orb_false_r. intros H.
    destruct sub; [by destruct b|done].
  - change (String c s +:+ b) with (String c (s +:+ b)). cbn [contains].
    intros [H|H]%orb_true_iff; apply orb_true_iff.
    + left. by apply (startswith_app_l (String c s)).
    + right. by apply IH.
Qed.

Lemma startswith_inv (s p : string) :
  startswith s p = true → ∃ b, s = p +:+ b.
Proof.
  revert s. induction p as [|a p IH]; intros s; [by exists s|].
  destruct s as [|c s]; [done|]. cbn [startswith].
  destruct (Ascii.eqb_spec a c) as [->|]; [|done].
  intros [b ->]%IH. by exists b.
Qed.

(** [sub in s] holds exactly when [s] is [sub] with something around it. *)
Lemma contains_spec (s sub : string) :
  contains s sub = true ↔ ∃ a b, s = a +:+ sub +:+ b.
Proof.
  split; [|intros (a & b & ->); apply contains_mid].
  induction s as [|c s IH]; cbn [contains].
  - rewrite orb_false_r. intros [b ->]%startswith_inv. by exists "", b.
  - intros [[b ->]%startswith_inv|(a & b & ->)%IH]%orb_true_iff.
    + by exists "", b.
    + by exists (String c a), b.
Qed.

Lemma contains_trans (s m sub : string) :
  contains s m = true → contains m sub = true → contains s sub = true.
Proof.
  intros (a & b & ->)%contains_spec (c & d & ->)%contains_spec.
  apply contains_spec. exists (a +:+ c), (d +:+ b). by rewrite !app_assoc.
Qed.

Lemma contains_join (sep x : string) (l : list string) :
  x ∈ l → contains (join sep l) x = true.
Proof.
  induction l as [|y l IH]; [by intros ?%elem_of_nil|].
  intros [->|Hin]%elem_of_cons.
  - destruct l as [|z l]; cbn [join].
    + rewrite <- (app_nil_r y) at 1. apply contains_here.
    + apply contains_here.
  - destruct l as [|z l]; [by apply elem_of_nil in Hin|].
    cbn [join]. by apply contains_app_r, contains_app_r, IH.
Qed.

Lemma repr_char_plain (c : ascii) :
  plain_char c = true → repr_char "'"%char c = String c "".
Proof.
  destruct c as [[] [] [] [] [] [] [] []]; intros H; try discriminate H; reflexivity.
Qed.

Lemma plain_no_quote (s : string) : plain s = true → mem_ascii "'"%char s = false.
Proof.
  induction s as [|c s IH]; [done|]. cbn [plain mem_ascii].
  intros [Hc Hs]%andb_true_iff. rewrite (IH Hs), orb_false_r.
  unfold plain_char in Hc. apply andb_true_iff in Hc as [Hc _].
  apply andb_true_iff in Hc as [_ Hc]. rewrite Ascii.eqb_sym.
  by destruct (Ascii.eqb c "'").
Qed.

(** [repr] of a plain string is the string between single quotes. *)
Lemma repr_plain (s : string) : plain s = true → repr s = "'" +:+ s +:+ "'".
Proof.
  intros H. unfold repr, repr_quote. rewrite (plain_no_quote s H). cbn [andb].
  change ("'" +:+ s +:+ "'") with (String "'" (s +:+ "'")). f_equal.
  induction s as [|c s IH]; [reflexivity|].
  cbn [plain] in H. apply andb_true_iff in H as [Hc Hs].
  cbn [repr_body]. rewrite (repr_char_plain c Hc).
  change (String c (repr_body "'" s +:+ "'") = String c (s +:+ "'")).
  by rewrite (IH Hs).
Qed.

(** The printed list shows the [repr] of each of its elements. *)
Lemma contains_str_of_list (x : string) (l : list string) :
  x ∈ l → contains (str_of_list l) (repr x) = true.
Proof.
  intros Hin. unfold str_of_list. apply contains_app_r, contains_app_l.
  apply contains_join. by apply list_elem_of_fmap_2.
Qed.

Lemma dict_lookup_fold {A} (pairs : list (string * A)) (d : gmap string A) (k : string) :
  is_Some (fold_left (fun d kv => <[kv.1 := kv.2]> d) pairs d !! k) ↔
  k ∈ pairs.*1 ∨ is_Some (d !! k).
Proof.
  revert d. induction pairs as [|[k' v] pairs IH]; intros d; cbn [fold_left fmap list_fmap].
  - split; [by right|]. by intros [?%elem_of_nil|?].
  - rewrite IH, elem_of_cons. cbn [fst snd]. rewrite lookup_insert_is_Some.
    destruct (decide (k' = k)) as [->|Hne]; [tauto|].
    split; [intros [?|[?|[? ?]]]|intros [[?|?]|?]]; try tauto. congruence.
Qed.

(** The keys of [dict(pairs)] are the first components of the pairs. *)
Lemma dict_is_Some {A} (pairs : list (string * A)) (k : string) :
  is_Some (dict pairs !! k) ↔ k ∈ pairs.*1.
Proof.
  unfold dict. rewrite dict_lookup_fold, lookup_empty.
  split; [intros [?|[? [=]]]; done|by left].
Qed.

End PyFacts.

(** ** System probes *)

Section SystemToolsFacts.

Import SystemTools Examples.

Lemma shared_lib_exts_lookup (k : string) :
  shared_lib_exts !! k =
    if decide (k = "Darwin") then Some "dylib"
    else if decide (k = "Linux") then Some "so" else None.
Proof.
  unfold shared_lib_exts, dict. cbn [fold_left fst snd].
  rewrite lookup_insert. destruct (decide ("Darwin" = k)) as [<-|Hd].
  { by rewrite decide_True. }
  rewrite decide_False by congruence.
  rewrite lookup_insert. destruct (decide ("Linux" = k)) as [<-|Hl].
  { by rewrite decide_True. }
  rewrite decide_False by congruence. apply lookup_empty.
Qed.

Lemma get_system_type_nonempty (h : Host) :
  platform_system h ≠ "" → get_system_type h = Return (platform_system h).
Proof.
  intros H. unfold get_system_type. destruct (platform_system h); [done|reflexivity].
Qed.

Lemma get_system_type_empty (h : Host) :
  platform_system h = "" →
  ∃ msg, get_system_type h = Raise (SystemToolsException msg).
Proof. intros H. unfold get_system_type. rewrite H. eauto. Qed.

(** C8.  The extension of shared libraries is "so" on Linux and "dylib"
    on Darwin, the function raises [SystemToolsException] for every
    other system type, and the lookup table holds exactly these two
    entries. *)
Theorem get_shared_lib_ext_by_system_type (h : Host) :
  (platform_system h = "Linux" → get_shared_lib_ext h = Return "so") ∧
  (platform_system h = "Darwin" → get_shared_lib_ext h = Return "dylib") ∧
  (platform_system h ≠ "Linux" → platform_system h ≠ "Darwin" →
     ∃ msg, get_shared_lib_ext h = Raise (SystemToolsException msg)) ∧
  (∀ k v, shared_lib_exts !! k = Some v ↔
            (k = "Linux" ∧ v = "so") ∨ (k = "Darwin" ∧ v = "dylib")).
Proof.
  split; [|split; [|split]].
  - intros H. unfold get_shared_lib_ext, get_system_type. rewrite H. reflexivity.
  - intros H. unfold get_shared_lib_ext, get_system_type. rewrite H. reflexivity.
  - intros Hl Hd. unfold get_shared_lib_ext.
    destruct (decide (platform_system h = "")) as [He|He].
    + destruct (get_system_type_empty h He) as [msg ->]. by exists msg.
    + rewrite (get_system_type_nonempty h He). cbn [mbind result_bind].
      rewrite bool_decide_eq_false_2; [eauto|].
      rewrite elem_of_keys, shared_lib_exts_lookup.
      rewrite !decide_False by done. by intros [? ?].
  - intros k v. rewrite shared_lib_exts_lookup.
    destruct (decide (k = "Darwin")) as [->|Hd].
    { split; [intros [= <-]; by right|]. by intros [[[=] _]|[_ ->]]. }
    destruct (decide (k = "Linux")) as [->|Hl].
    { split; [intros [= <-]; by left|]. by intros [[_ ->]|[[=] _]]. }
    split; [done|]. by intros [[-> _]|[-> _]].
Qed.

Lemma get_shared_lib_ext_by_system_type_witness :
  get_shared_lib_ext sles11_sp1 = Return "so" ∧
  get_shared_lib_ext mac = Return "dylib" ∧
  (∃ msg, get_shared_lib_ext opaque = Raise (SystemToolsException msg)).
Proof.
  split; [|split].
  - apply (proj1 (get_shared_lib_ext_by_system_type sles11_sp1)). reflexivity.
  - apply (proj1 (proj2 (get_shared_lib_ext_by_system_type mac))). reflexivity.
  - apply (proj1 (proj2 (proj2 (get_shared_lib_ext_by_system_type opaque)))).
    + discriminate.
    + discriminate.
Defined.

(** C10.  On Linux the platform name with version is the machine, the
    vendor "unknown" and "linux-gnu": the kernel release is not used and
    the name ends in "-gnu".  On Darwin the release is appended. *)
Theorem get_platform_name_withversion (h : Host) :
  (platform_system h = "Linux" →
     get_platform_name true h = Return (platform_machine h +:+ "-unknown-linux-gnu") ∧
     (∀ name, get_platform_name true h = Return name → endswith name "-gnu" = true) ∧
     (∀ h', platform_system h' = "Linux" → platform_machine h' = platform_machine h →
            get_platform_name true h' = get_platform_name true h)) ∧
  (platform_system h = "Darwin" →
     get_platform_name true h =
       Return (platform_machine h +:+ "-apple-darwin" +:+ platform_release h)).
Proof.
  split.
  - intros H.
    assert (get_platform_name true h
            = Return (platform_machine h +:+ "-unknown-linux-gnu")) as E.
    { unfold get_platform_name, get_system_type. rewrite H. reflexivity. }
    split; [exact E|]. split.
    + intros name. rewrite E. intros [= <-]. by apply endswith_app_r.
    + intros h' H' Hm. rewrite E. unfold get_platform_name, get_system_type.
      rewrite H', Hm. reflexivity.
  - intros H. unfold get_platform_name, get_system_type. rewrite H. reflexivity.
Qed.

Lemma get_platform_name_withversion_witness :
  get_platform_name true sles11_sp1 = Return ("x86_64" +:+ "-unknown-linux-gnu") ∧
  get_platform_name true rhel6 = get_platform_name true sles11_sp1 ∧
  get_platform_name true mac = Return ("x86_64" +:+ "-apple-darwin" +:+ "13.4.0").
Proof.
  destruct (proj1 (get_platform_name_withversion sles11_sp1) eq_refl) as (E & _ & Hsame).
  split; [exact E|]. split.
  - apply (Hsame rhel6); reflexivity.
  - apply (proj2 (get_platform_name_withversion mac)). reflexivity.
Defined.

End SystemToolsFacts.

(** ** The distribution name and version *)

Section Distribution.

Import SystemTools Examples.

(** [AttributeErrror] is not the name of a builtin exception. *)
Lemma AttributeErrror_unbound :
  builtin_exception "AttributeErrror"
  = Raise (NameError "global name 'AttributeErrror' is not defined").
Proof. reflexivity. Qed.

(** Without [platform.linux_distribution] the [except] clause is reached,
    and evaluating it raises [NameError]: [platform.dist] is never asked. *)
Lemma get_system_name_without_linux_distribution (h : Host) :
  platform_linux_distribution h = None →
  get_system_name h = Raise (NameError "global name 'AttributeErrror' is not defined").
Proof.
  intros H. unfold get_system_name, linux_distribution_name. rewrite H. reflexivity.
Qed.

(** With [platform.linux_distribution] the name it gives is stripped,
    put in lower case and looked up in the alias table; an empty name
    gives the sentinel. *)
Lemma get_system_name_with_linux_distribution (h : Host) (d : string * string * string) :
  platform_linux_distribution h = Some d →
  get_system_name h =
    Return (let system_name := lower (strip d.1.1) in
            if truthy system_name
            then get system_name_map system_name system_name
            else "UNKNOWN_SYSTEM_NAME").
Proof.
  intros H. unfold get_system_name, linux_distribution_name. rewrite H.
  cbn [try_except mbind result_bind]. by destruct (truthy _).
Qed.

(** C9.  On a Python without [platform.linux_distribution] (here Python
    2.5 on a Red Hat machine, where [platform.dist] answers "redhat") the
    fallback is not taken: [get_system_name] raises [NameError]. *)
Theorem get_system_name_fallback_unreachable :
  platform_linux_distribution rhel5_python25 = None ∧
  lower (strip (platform_dist rhel5_python25).1.1) = "redhat" ∧
  get_system_name rhel5_python25
  = Raise (NameError "global name 'AttributeErrror' is not defined").
Proof.
  split; [reflexivity|]. split; [reflexivity|].
  by apply get_system_name_without_linux_distribution.
Qed.

(** The parts of C9 that do not depend on the fallback. *)
Lemma get_system_name_rhel_alias :
  get_system_name rhel6 = Return "RHEL".
Proof. reflexivity. Qed.

Lemma get_system_name_empty_sentinel :
  get_system_name mac = Return "UNKNOWN_SYSTEM_NAME".
Proof. reflexivity. Qed.

(** A list has no [startswith]: on SuSE 11 the first comparison of the
    kernel version raises, whatever the kernel is. *)
Lemma get_system_version_suse_11 (h : Host) :
  get_system_name h = Return "suse" →
  (platform_dist h).1.2 = "11" →
  get_system_version h
  = Raise (AttributeError "'list' object has no attribute 'startswith'").
Proof.
  intros Hname Hver. unfold get_system_version. rewrite Hver, Hname. reflexivity.
Qed.

(** C3.  On a SuSE 11 machine with kernel 2.6.32.12 [get_system_version]
    does not return "11_SP1": it raises [AttributeError]. *)
Theorem get_system_version_sles11_sp1_raises :
  get_system_name sles11_sp1 = Return "suse" ∧
  (platform_dist sles11_sp1).1.2 = "11" ∧
  startswith (platform_uname_release sles11_sp1) "2.6.32." = true ∧
  get_system_version sles11_sp1
  = Raise (AttributeError "'list' object has no attribute 'startswith'").
Proof.
  assert (get_system_name sles11_sp1 = Return "suse") as Hname.
  { by rewrite (get_system_name_with_linux_distribution sles11_sp1 ("SuSE", "11", "x86_64")). }
  split; [exact Hname|]. split; [reflexivity|]. split; [reflexivity|].
  by apply get_system_version_suse_11.
Qed.

(** Outside SuSE 11 the version is what [platform.dist] reports. *)
Lemma get_system_version_other (h : Host) (name : string) :
  get_system_name h = Return name →
  truthy (platform_dist h).1.2 = true →
  name ≠ "suse" ∨ (platform_dist h).1.2 ≠ "11" →
  get_system_version h = Return (platform_dist h).1.2.
Proof.
  intros Hname Ht Hne. unfold get_system_version. rewrite Ht, Hname.
  cbn [mbind result_bind].
  destruct (String.eqb_spec name "suse") as [->|?]; [|reflexivity].
  destruct (String.eqb_spec (platform_dist h).1.2 "11") as [E|?]; [|reflexivity].
  by destruct Hne.
Qed.

End Distribution.

(** ** The number of cores *)

Section CoreCount.

Import SystemTools Examples.

Lemma try_pass_foreign {A} (body : result (option A)) (classes : list exn_class) :
  foreign body → foreign (try_pass body classes).
Proof.
  intros Hb e. unfold try_pass. destruct body as [o|e']; [done|].
  case_bool_decide; [done|]. intros [= <-]. by apply Hb.
Qed.

Ltac fell_through :=
  unfold try_pass; cbn [mbind result_bind]; try case_bool_decide; done.

Lemma core_count_native_positive (h : Host) (n : Z) :
  core_count_native h = Return (Some n) → 1 ≤ n.
Proof.
  unfold core_count_native, cpu_count.
  destruct (multiprocessing h) as [num|]; [|by vm_compute].
  destruct (Z.leb_spec 1 num); [|by vm_compute].
  cbn. by intros [= <-].
Qed.

Lemma core_count_posix_positive (h : Host) (n : Z) :
  core_count_posix h = Return (Some n) → 1 ≤ n.
Proof.
  unfold core_count_posix.
  destruct (os_sysconf h _) as [cores|e]; [|fell_through]; cbn.
  destruct (Z.ltb_spec 0 cores); [|done]. intros [= <-]. lia.
Qed.

Lemma core_count_linux_positive (h : Host) (n : Z) :
  core_count_linux h = Return (Some n) → 1 ≤ n.
Proof.
  unfold core_count_linux.
  destruct (open_read h _) as [txt|e]; [|fell_through]; cbn.
  destruct (Z.ltb_spec 0 (Z.of_nat (count txt processor_tab_colon))); [|done].
  intros [= <-]. lia.
Qed.

Lemma core_count_bsd_positive (h : Host) (n : Z) :
  core_count_bsd h = Return (Some n) → 1 ≤ n.
Proof.
  unfold core_count_bsd.
  destruct (run_cmd h _) as [[out ec]|e]; [|fell_through]; cbn.
  destruct (int out) as [cores|e]; [|fell_through]; cbn.
  destruct (Z.ltb_spec 0 cores); [|done]. intros [= <-]. lia.
Qed.

Lemma core_count_native_foreign (h : Host) : foreign (core_count_native h).
Proof.
  apply try_pass_foreign. intros e.
  destruct (multiprocessing h) as [num|]; [|by intros [= <-]].
  unfold cpu_count. destruct (1 <=? num); cbn; [done|by intros [= <-]].
Qed.

Lemma core_count_posix_foreign (h : Host) :
  foreign (os_sysconf h "SC_NPROCESSORS_ONLN") → foreign (core_count_posix h).
Proof.
  intros Hf. apply try_pass_foreign. intros e.
  destruct (os_sysconf h _) as [cores|e']; cbn.
  - by destruct (0 <? cores).
  - intros [= <-]. by apply Hf.
Qed.

Lemma core_count_linux_foreign (h : Host) :
  foreign (open_read h "/proc/cpuinfo") → foreign (core_count_linux h).
Proof.
  intros Hf. apply try_pass_foreign. intros e.
  destruct (open_read h _) as [txt|e']; cbn.
  - by destruct (0 <? _).
  - intros [= <-]. by apply Hf.
Qed.

Lemma int_foreign (s : string) : foreign (int s).
Proof.
  intros e. unfold int.
  destruct (match strip s with
            | String "-"%char r => (-1, r)
            | String "+"%char r => (1, r)
            | _ => (1, strip s)
            end) as [sign body].
  destruct body; [by intros [= <-]|].
  destruct (digits 0 _); [done|by intros [= <-]].
Qed.

Lemma core_count_bsd_foreign (h : Host) :
  foreign (run_cmd h "sysctl -n hw.ncpu") → foreign (core_count_bsd h).
Proof.
  intros Hf. apply try_pass_foreign. intros e.
  destruct (run_cmd h _) as [[out ec]|e']; cbn.
  - pose proof (int_foreign out) as Hi.
    destruct (int out) as [cores|e']; cbn.
    + by destruct (0 <? cores).
    + intros [= <-]. by apply Hi.
  - intros [= <-]. by apply Hf.
Qed.

Lemma or_else_returns {A} (block : result (option A)) (rest : result A) (a : A) :
  or_else block rest = Return a →
  block = Return (Some a) ∨ (block = Return None ∧ rest = Return a).
Proof. destruct block as [[b|]|e]; cbn; [intros [= <-]| |]; auto; done. Qed.

Lemma or_else_raises {A} (block : result (option A)) (rest : result A) (e : exn) :
  or_else block rest = Raise e →
  block = Raise e ∨ (block = Return None ∧ rest = Raise e).
Proof. destruct block as [[b|]|e']; cbn; [done| |intros [= <-]]; auto. Qed.

(** The POSIX source is passed over exactly when [sysconf] is missing
    ([AttributeError]), does not know the name ([ValueError]) or gives a
    number that is not positive. *)
Lemma core_count_posix_passed (h : Host) :
  core_count_posix h = Return None ↔
  match os_sysconf h "SC_NPROCESSORS_ONLN" with
  | Return cores => cores ≤ 0
  | Raise e => class_of e = CAttributeError ∨ class_of e = CValueError
  end.
Proof.
  unfold core_count_posix. destruct (os_sysconf h _) as [cores|e]; cbn.
  - destruct (Z.ltb_spec 0 cores); split; (done || lia).
  - rewrite bool_decide_decide. destruct (decide _) as [Hin|Hin].
    + split; [|done]. intros _.
      apply elem_of_cons in Hin as [?|Hin]; [by left|].
      apply elem_of_cons in Hin as [?|Hin]; [by right|]. by apply elem_of_nil in Hin.
    + split; [done|]. intros [E|E]; destruct Hin; rewrite E.
      * by constructor.
      * by do 2 constructor.
Qed.

(** The native source is passed over exactly when [multiprocessing] cannot
    be imported or reports no CPU. *)
Lemma core_count_native_passed (h : Host) :
  core_count_native h = Return None ↔
  match multiprocessing h with
  | None => True
  | Some num => num < 1
  end.
Proof.
  unfold core_count_native, cpu_count. destruct (multiprocessing h) as [num|].
  - destruct (Z.leb_spec 1 num); cbn; split; (done || lia).
  - by vm_compute.
Qed.

(** The Linux source is passed over exactly when [/proc/cpuinfo] cannot be
    opened ([IOError]) or has no processor line. *)
Lemma core_count_linux_passed (h : Host) :
  core_count_linux h = Return None ↔
  match open_read h "/proc/cpuinfo" with
  | Return txt => count txt processor_tab_colon = 0%nat
  | Raise e => class_of e = CIOError
  end.
Proof.
  unfold core_count_linux. destruct (open_read h _) as [txt|e]; cbn.
  - destruct (Z.ltb_spec 0 (Z.of_nat (count txt processor_tab_colon)));
      split; (done || lia).
  - rewrite bool_decide_decide. destruct (decide _) as [Hin|Hin].
    + split; [|done]. intros _.
      apply elem_of_cons in Hin as [?|Hin]; [done|]. by apply elem_of_nil in Hin.
    + split; [done|]. intros E. destruct Hin. rewrite E. by constructor.
Qed.

(** The BSD source is passed over exactly when the output of [sysctl] is
    not a number ([ValueError]) or is a number that is not positive. *)
Lemma core_count_bsd_passed (h : Host) :
  core_count_bsd h = Return None ↔
  match run_cmd h "sysctl -n hw.ncpu" with
  | Return (out, _) =>
      match int out with
      | Return cores => cores ≤ 0
      | Raise e => class_of e = CValueError
      end
  | Raise e => class_of e = CValueError
  end.
Proof.
  assert (∀ e : exn, bool_decide (class_of e ∈ [CValueError]) = true
                     ↔ class_of e = CValueError) as Hv.
  { intros e. rewrite bool_decide_eq_true. split.
    - intros [?|Hin]%elem_of_cons; [done|]. by apply elem_of_nil in Hin.
    - intros ->. by constructor. }
  unfold core_count_bsd. destruct (run_cmd h _) as [[out ec]|e]; cbn.
  - destruct (int out) as [cores|e]; cbn.
    + destruct (Z.ltb_spec 0 cores); split; (done || lia).
    + rewrite <- Hv. by destruct (bool_decide _).
  - rewrite <- Hv. by destruct (bool_decide _).
Qed.

(** C7, as the code has it.  The sources are tried in the order native
    API, POSIX [sysconf], [/proc/cpuinfo], [sysctl -n hw.ncpu]: a source
    is asked once those before it are passed over, and the number it
    gives is returned.  A number returned is at least 1.  Without the
    native API, with [sysconf] raising [AttributeError] or [ValueError] or
    giving a number that is not positive, and with 4 processor lines in
    [/proc/cpuinfo], the result is 4.  [SystemToolsException] is raised
    only when every source fails: no native count, [sysconf] as above,
    [/proc/cpuinfo] unreadable or without processor line, and no positive
    number from [sysctl]. *)
Theorem get_core_count_sources (h : Host) :
  (∀ n, core_count_native h = Return (Some n) → get_core_count h = Return n) ∧
  (∀ n, core_count_native h = Return None →
        core_count_posix h = Return (Some n) → get_core_count h = Return n) ∧
  (∀ n, core_count_native h = Return None →
        core_count_posix h = Return None →
        core_count_linux h = Return (Some n) → get_core_count h = Return n) ∧
  (∀ n, core_count_native h = Return None →
        core_count_posix h = Return None →
        core_count_linux h = Return None →
        core_count_bsd h = Return (Some n) → get_core_count h = Return n) ∧
  (∀ n, get_core_count h = Return n → 1 ≤ n) ∧
  (∀ txt, multiprocessing h = None →
          match os_sysconf h "SC_NPROCESSORS_ONLN" with
          | Return cores => cores ≤ 0
          | Raise e => class_of e = CAttributeError ∨ class_of e = CValueError
          end →
          open_read h "/proc/cpuinfo" = Return txt →
          count txt processor_tab_colon = 4%nat →
          get_core_count h = Return 4) ∧
  (libraries_foreign h →
     (∃ msg, get_core_count h = Raise (SystemToolsException msg)) →
     match multiprocessing h with
     | None => True
     | Some num => num < 1
     end ∧
     match os_sysconf h "SC_NPROCESSORS_ONLN" with
     | Return cores => cores ≤ 0
     | Raise e => class_of e = CAttributeError ∨ class_of e = CValueError
     end ∧
     match open_read h "/proc/cpuinfo" with
     | Return txt => count txt processor_tab_colon = 0%nat
     | Raise e => class_of e = CIOError
     end ∧
     match run_cmd h "sysctl -n hw.ncpu" with
     | Return (out, _) =>
         match int out with
         | Return cores => cores ≤ 0
         | Raise e => class_of e = CValueError
         end
     | Raise e => class_of e = CValueError
     end).
Proof.
  unfold get_core_count.
  split; [|split; [|split; [|split; [|split; [|split]]]]].
  - by intros n ->.
  - by intros n -> ->.
  - by intros n -> -> ->.
  - by intros n -> -> -> ->.
  - intros n H.
    apply or_else_returns in H as [H|[_ H]];
      [by eapply core_count_native_positive|].
    apply or_else_returns in H as [H|[_ H]];
      [by eapply core_count_posix_positive|].
    apply or_else_returns in H as [H|[_ H]];
      [by eapply core_count_linux_positive|].
    apply or_else_returns in H as [H|[_ H]];
      [by eapply core_count_bsd_positive|done].
  - intros txt Hm Hp%core_count_posix_passed Hr Hc.
    unfold core_count_native. rewrite Hm, Hp.
    unfold core_count_linux. rewrite Hr. cbn [mbind result_bind]. rewrite Hc.
    reflexivity.
  - intros (Hs & Hr & Hc) [msg H].
    pose proof (core_count_native_foreign h) as Fn.
    pose proof (core_count_posix_foreign h Hs) as Fp.
    pose proof (core_count_linux_foreign h Hr) as Fl.
    pose proof (core_count_bsd_foreign h Hc) as Fb.
    apply or_else_raises in H as [H|[Hn H]]; [by apply Fn in H|].
    apply or_else_raises in H as [H|[Hp H]]; [by apply Fp in H|].
    apply or_else_raises in H as [H|[Hl H]]; [by apply Fl in H|].
    apply or_else_raises in H as [H|[Hb H]]; [by apply Fb in H|].
    split; [by apply core_count_native_passed|].
    split; [by apply core_count_posix_passed|].
    split; [by apply core_count_linux_passed|by apply core_count_bsd_passed].
Qed.

(** When all four sources are passed over, [SystemToolsException] is what
    is raised. *)
Lemma get_core_count_all_passed (h : Host) :
  core_count_native h = Return None → core_count_posix h = Return None →
  core_count_linux h = Return None → core_count_bsd h = Return None →
  get_core_count h
  = Raise (SystemToolsException "Can not determine number of cores on this system").
Proof. unfold get_core_count. by intros -> -> -> ->. Qed.

Lemma get_core_count_sources_witness :
  get_core_count sles11_sp1 = Return 8 ∧
  get_core_count container = Return 2 ∧
  get_core_count cpuinfo_only = Return 4 ∧
  get_core_count mac = Return 4 ∧
  1 ≤ 4 ∧
  count "" processor_tab_colon = 0%nat.
Proof.
  split; [|split; [|split; [|split; [|split]]]].
  - apply (proj1 (get_core_count_sources sles11_sp1)). reflexivity.
  - apply (proj1 (proj2 (get_core_count_sources container))); reflexivity.
  - apply (proj1 (proj2 (proj2 (proj2 (proj2 (proj2 (get_core_count_sources cpuinfo_only))))))
             cpuinfo4).
    + reflexivity.
    + right. reflexivity.
    + reflexivity.
    + reflexivity.
  - apply (proj1 (proj2 (proj2 (proj2 (get_core_count_sources mac))))); reflexivity.
  - apply (proj1 (proj2 (proj2 (proj2 (proj2 (get_core_count_sources mac))))) 4).
    reflexivity.
  - destruct (proj2 (proj2 (proj2 (proj2 (proj2 (proj2
                (get_core_count_sources no_proc))))))) as (_ & _ & Hl & _).
    + repeat split; intros e; vm_compute; intros [= <-]; discriminate.
    + eexists. reflexivity.
    + exact Hl.
Defined.

(** C7 as stated fails: in the container there is no native API and
    [/proc/cpuinfo] has 4 processor lines, yet [sysconf] is asked first
    and the result is 2. *)
Lemma get_core_count_container_not_4 :
  multiprocessing container = None ∧
  (∃ txt, open_read container "/proc/cpuinfo" = Return txt ∧
          count txt processor_tab_colon = 4%nat) ∧
  get_core_count container = Return 2 ∧
  get_core_count container ≠ Return 4.
Proof.
  split; [reflexivity|]. split; [by exists cpuinfo4|]. split; [reflexivity|].
  discriminate.
Qed.

End CoreCount.

(** ** Naming scheme resolution *)

Section Resolution.

Import PackageUtilities Examples.

Context {EC : Type}.
Implicit Types (env : Env EC) (st : State EC) (cls : PackageNamingScheme EC).

(** The names of the discovered classes are the keys of the dictionary. *)
Lemma avail_package_naming_schemes_keys env (n : string) :
  n ∈ keys (avail_package_naming_schemes env) ↔ n ∈ (get_subclasses env).*1.
Proof.
  unfold avail_package_naming_schemes. by rewrite elem_of_keys, dict_is_Some.
Qed.

(** C4.  When the selected name is the name of a discovered class,
    [ActivePNS.__init__] instantiates the class the dictionary holds for it.
    When it is not, it raises [EasyBuildError] (the configuration error of
    the framework); the message shows the selected name and the printed
    list of all discovered names, hence the [repr] of each of them. *)
Theorem ActivePNS_init_selected env :
  let avail_pns := avail_package_naming_schemes env in
  let sel_pns := get_package_naming_scheme env in
  (∀ cls, avail_pns !! sel_pns = Some cls →
          sel_pns ∈ (get_subclasses env).*1 ∧
          ActivePNS_init env = Return {| pns := cls |}) ∧
  (sel_pns ∉ (get_subclasses env).*1 →
     ∃ msg, ActivePNS_init env = Raise (EasyBuildError msg) ∧
            msg = "Selected package naming scheme " +:+ sel_pns
                  +:+ " could not be found in " +:+ str_of_list (keys avail_pns) ∧
            contains msg sel_pns = true ∧
            contains msg (str_of_list (keys avail_pns)) = true ∧
            ∀ n, n ∈ (get_subclasses env).*1 →
                 contains msg (repr n) = true ∧
                 (plain n = true → contains msg n = true)).
Proof.
  intros avail_pns sel_pns. split.
  - intros cls Hcls. split.
    { apply avail_package_naming_schemes_keys, elem_of_keys. by exists cls. }
    unfold ActivePNS_init. fold avail_pns sel_pns.
    rewrite bool_decide_eq_true_2 by (by exists cls).
    unfold getitem. by rewrite Hcls.
  - intros Hsel. eexists. split; [|split; [reflexivity|]].
    + unfold ActivePNS_init. fold avail_pns sel_pns.
      rewrite bool_decide_eq_false_2; [reflexivity|].
      intros Hs. by apply Hsel, avail_package_naming_schemes_keys, elem_of_keys.
    + split; [apply contains_mid|]. split.
      * apply contains_app_r, contains_app_r, contains_app_r, contains_refl.
      * intros n Hn.
        assert (contains (str_of_list (keys avail_pns)) (repr n) = true) as Hr.
        { by apply contains_str_of_list, avail_package_naming_schemes_keys. }
        split; [by apply contains_app_r, contains_app_r, contains_app_r|].
        intros Hplain. apply contains_app_r, contains_app_r, contains_app_r.
        apply contains_trans with (repr n); [exact Hr|].
        rewrite (repr_plain n Hplain). apply contains_mid.
Qed.

End Resolution.

Section ResolutionExamples.

Import PackageUtilities Examples.

Lemma ActivePNS_init_selected_witness :
  ActivePNS_init ready = Return {| pns := EasyBuildPNS |} ∧
  ∃ msg, ActivePNS_init unknown_pns = Raise (EasyBuildError msg) ∧
         contains msg "MyPNS" = true ∧ contains msg "EasyBuildPNS" = true.
Proof.
  split.
  - apply (proj1 (ActivePNS_init_selected ready) EasyBuildPNS). reflexivity.
  - destruct (proj2 (ActivePNS_init_selected unknown_pns)) as (msg & E & _ & Hsel & _ & Hall).
    + by apply (bool_decide_eq_false_1 _).
    + exists msg. split; [exact E|]. split; [exact Hsel|].
      apply (Hall "EasyBuildPNS"); [|reflexivity]. by apply (bool_decide_eq_true_1 _).
Defined.

End ResolutionExamples.

(** ** The support check *)

Section SupportCheck.

Import PackageUtilities Examples.

Context {EC : Type}.
Implicit Types (env : Env EC) (st : State EC).

(** The gate comes first: when [_log.experimental] raises, its exception is
    the outcome, whatever is on PATH. *)
Lemma check_pkg_support_gate env st (e : exn) :
  log_experimental env "Support for packaging installed software." = Raise e →
  check_pkg_support env st = (Raise e, st).
Proof. intros H. unfold check_pkg_support, bind, pure. by rewrite H. Qed.

(** C5, as the code has it.  Once the logger's gate for experimental
    functionality is passed: a packaging tool that is not on PATH gives an
    [EasyBuildError] whose message contains the name of the tool; FPM found
    with package type RPM and no [rpmbuild] on PATH gives an
    [EasyBuildError] with another message; in every other case the check
    returns.  The state of the process is the same afterwards in all
    cases. *)
Theorem check_pkg_support_outcome env st :
  let pkgtool := package_tool env in
  log_experimental env "Support for packaging installed software." = Return tt →
  (found (which env pkgtool) = false →
     ∃ msg, check_pkg_support env st = (Raise (EasyBuildError msg), st) ∧
            msg = "Selected packaging tool '" +:+ pkgtool +:+ "' not found" ∧
            contains msg pkgtool = true) ∧
  (found (which env pkgtool) = true →
     pkgtool = PKG_TOOL_FPM → package_type env = PKG_TYPE_RPM →
     found (which env "rpmbuild") = false →
     ∃ msg, check_pkg_support env st = (Raise (EasyBuildError msg), st) ∧
            msg = "rpmbuild is required when generating RPM packages with FPM, but was not found" ∧
            msg ≠ "Selected packaging tool '" +:+ pkgtool +:+ "' not found") ∧
  (found (which env pkgtool) = true →
     pkgtool ≠ PKG_TOOL_FPM ∨ package_type env ≠ PKG_TYPE_RPM
     ∨ found (which env "rpmbuild") = true →
     check_pkg_support env st = (Return tt, st)).
Proof.
  intros pkgtool Hgate.
  assert (check_pkg_support env st =
          (if found (which env pkgtool) then
             if String.eqb pkgtool PKG_TOOL_FPM && String.eqb (package_type env) PKG_TYPE_RPM
             then if found (which env "rpmbuild") then ret tt
                  else raise (EasyBuildError
                    "rpmbuild is required when generating RPM packages with FPM, but was not found")
             else ret tt
           else raise (EasyBuildError
                         ("Selected packaging tool '" +:+ pkgtool +:+ "' not found"))) st)
    as E.
  { unfold check_pkg_support, bind, pure. by rewrite Hgate. }
  rewrite E. clear E. split; [|split].
  - intros ->. eexists. split; [reflexivity|]. split; [reflexivity|].
    apply contains_mid.
  - intros -> -> -> ->. rewrite !String.eqb_refl. eexists.
    split; [reflexivity|]. split; [reflexivity|]. discriminate.
  - intros -> H.
    destruct (String.eqb_spec pkgtool PKG_TOOL_FPM) as [Ht|Ht]; [|reflexivity].
    destruct (String.eqb_spec (package_type env) PKG_TYPE_RPM) as [Hp|Hp]; [|reflexivity].
    destruct H as [H|[H|H]]; [done|done|]. cbn [andb]. by rewrite H.
Qed.

End SupportCheck.

Section SupportCheckExamples.

Import PackageUtilities Examples.

Lemma check_pkg_support_outcome_witness :
  (∃ msg, check_pkg_support no_fpm fresh = (Raise (EasyBuildError msg), fresh) ∧
          contains msg "fpm" = true) ∧
  (∃ msg, check_pkg_support no_rpmbuild fresh = (Raise (EasyBuildError msg), fresh) ∧
          msg = "rpmbuild is required when generating RPM packages with FPM, but was not found") ∧
  check_pkg_support ready fresh = (Return tt, fresh).
Proof.
  split; [|split].
  - destruct (proj1 (check_pkg_support_outcome no_fpm fresh eq_refl))
      as (msg & E & _ & Hc); [reflexivity|].
    exists msg. by split.
  - destruct (proj1 (proj2 (check_pkg_support_outcome no_rpmbuild fresh eq_refl)))
      as (msg & E & Hm & _); [reflexivity..|].
    exists msg. by split.
  - apply (proj2 (proj2 (check_pkg_support_outcome ready fresh eq_refl))).
    + reflexivity.
    + right. right. reflexivity.
Defined.

(** C5 as stated fails: with FPM missing from PATH and [--experimental] not
    given, the error raised is the one of the gate, and its message does
    not contain the name of the tool. *)
Lemma check_pkg_support_not_experimental :
  found (which no_fpm_not_experimental (package_tool no_fpm_not_experimental)) = false ∧
  ∃ msg, check_pkg_support no_fpm_not_experimental fresh
         = (Raise (EasyBuildError msg), fresh) ∧
         contains msg (package_tool no_fpm_not_experimental) = false.
Proof. split; [reflexivity|]. eexists. split; reflexivity. Qed.

End SupportCheckExamples.

(** ** Packaging with FPM *)

Section PackagingFacts.

Import PackageUtilities Examples.

Context {EC : Type}.
Implicit Types (env : Env EC) (st : State EC) (easyblock : EasyBlock EC)
  (self : ActivePNS EC).

(** [ActivePNS()] changes nothing but the cache, and what it yields
    depends on nothing but the cache. *)
Lemma ActivePNS_call_returns env st self :
  (ActivePNS_call env st).1 = Return self →
  ActivePNS_call env st
  = (Return self, {| cwd := cwd st; instance := Some self; commands := commands st |}) ∧
  (instance st = Some self ∨ (instance st = None ∧ ActivePNS_init env = Return self)).
Proof.
  unfold ActivePNS_call. destruct st as [d [cached|] cmds]; cbn.
  - intros [= ->]. auto.
  - destruct (ActivePNS_init env) as [s|e]; cbn; [|done]. intros [= ->]. auto.
Qed.

Lemma ActivePNS_call_cwd env st self (dir : string) :
  (ActivePNS_call env st).1 = Return self →
  ActivePNS_call env {| cwd := dir; instance := instance st; commands := commands st |}
  = (Return self, {| cwd := dir; instance := Some self; commands := commands st |}).
Proof.
  unfold ActivePNS_call. destruct st as [d [cached|] cmds]; cbn.
  - by intros [= ->].
  - destruct (ActivePNS_init env) as [s|e]; cbn; [|done]. by intros [= ->].
Qed.

(** The naming scheme is resolved once per process: after a call that
    succeeded, a call yields the same instance and changes nothing. *)
Lemma ActivePNS_call_again env st self :
  (ActivePNS_call env st).1 = Return self →
  ActivePNS_call env (ActivePNS_call env st).2 = (Return self, (ActivePNS_call env st).2).
Proof.
  intros H. destruct (ActivePNS_call_returns env st self H) as [-> _]. reflexivity.
Qed.

(** A constructor that raises leaves the process as it was. *)
Lemma ActivePNS_call_raises env st (e : exn) :
  (ActivePNS_call env st).1 = Raise e →
  ActivePNS_call env st = (Raise e, st) ∧ ActivePNS_init env = Raise e.
Proof.
  unfold ActivePNS_call. destruct (instance st) as [cached|]; [done|].
  destruct (ActivePNS_init env) as [s|e']; cbn; [done|]. by intros [= ->].
Qed.

(** Once the work directory is entered and the naming scheme resolved,
    [package_with_fpm] hands one command to [run_cmd]; what [run_cmd]
    raises is raised, and otherwise the work directory is returned. *)
Lemma package_with_fpm_run env easyblock st (workdir : string) self :
  mkdtemp env "eb-pkgs-" = Return workdir →
  os_chdir env workdir = Return tt →
  (ActivePNS_call env st).1 = Return self →
  let pkgname := name self (cfg easyblock) in
  let cmd :=
    join " " [
      PKG_TOOL_FPM;
      "--workdir"; workdir;
      "--name"; pkgname;
      "--provides"; pkgname;
      "-t"; package_type env;
      "-s"; "dir";
      "--version"; version self (cfg easyblock);
      "--iteration"; release self (cfg easyblock);
      depends_string self (package_deps env easyblock);
      installdir easyblock;
      module_generator_filename easyblock
    ] in
  package_with_fpm env easyblock st
  = (match run_cmd env cmd with
     | Return _ => Return workdir
     | Raise e => Raise e
     end,
     {| cwd := workdir; instance := Some self; commands := commands st ++ [cmd] |}).
Proof.
  intros Hmk Hcd Hpns pkgname cmd.
  unfold package_with_fpm, bind, pure, chdir_workdir. rewrite Hmk, Hcd.
  rewrite (ActivePNS_call_cwd env st self workdir Hpns).
  unfold do_run_cmd, ret. cbn [cwd instance commands].
  fold pkgname. fold cmd. by destruct (run_cmd env cmd).
Qed.

(** The loop over the dependencies appends one fragment per dependency. *)
Lemma depends_string_fragments self (deps : list EC) :
  depends_string self deps
  = join "" ((fun dep => " --depends '" +:+ name self dep +:+ "'") <$> deps).
Proof.
  unfold depends_string.
  set (f := fun dep => " --depends '" +:+ name self dep +:+ "'").
  change (fold_left (fun depstring dep => depstring +:+ f dep) deps ""
          = join "" (f <$> deps)).
  assert (∀ init, fold_left (fun depstring dep => depstring +:+ f dep) deps init
                  = init +:+ join "" (f <$> deps)) as H.
  { induction deps as [|d deps IH]; intros init; cbn [fold_left fmap list_fmap].
    - by rewrite app_nil_r.
    - rewrite IH, app_assoc. f_equal.
      destruct deps; cbn [fmap list_fmap join]; [by rewrite app_nil_r|reflexivity]. }
  apply H.
Qed.

(** Characters other than the first of [sub] are passed over by [count]. *)
Lemma count_from_pass (a : ascii) (sub u t : string) :
  mem_ascii a u = false →
  count_from 0 (String a sub) (u +:+ t) = count_from 0 (String a sub) t.
Proof.
  intros H. induction u as [|c u IH]; [reflexivity|].
  cbn [mem_ascii] in H. apply orb_false_iff in H as [Hc Hu].
  change (String c u +:+ t) with (String c (u +:+ t)).
  cbn [count_from startswith]. rewrite Hc. by apply IH.
Qed.

(** A fragment counts for one occurrence of its opening when the name in
    it has no space. *)
Lemma count_fragment (dep_pkgname t : string) :
  mem_ascii " " dep_pkgname = false →
  count ((" --depends '" +:+ dep_pkgname +:+ "'") +:+ t) " --depends '"
  = S (count t " --depends '").
Proof.
  intros H. unfold count. rewrite !app_assoc.
  change (S (count_from 0 " --depends '" (dep_pkgname +:+ "'" +:+ t))
          = S (count_from 0 " --depends '" t)).
  f_equal. rewrite (count_from_pass " " "--depends '" dep_pkgname _ H).
  apply (count_from_pass " " "--depends '" "'" t). reflexivity.
Qed.

Lemma count_fragments (f : EC → string) (deps : list EC) :
  Forall (fun dep => mem_ascii " " (f dep) = false) deps →
  count (join "" ((fun dep => " --depends '" +:+ f dep +:+ "'") <$> deps))
        " --depends '"
  = length deps.
Proof.
  induction 1 as [|d deps Hd Hdeps IH]; [reflexivity|].
  cbn [fmap list_fmap length].
  assert (∀ x l, join "" (x :: l) = x +:+ join "" l) as Hj.
  { intros x [|y l]; cbn [join]; [by rewrite app_nil_r|reflexivity]. }
  by rewrite Hj, count_fragment, IH.
Qed.

Lemma package_deps_cases env easyblock :
  (toolchain_name easyblock = DUMMY_TOOLCHAIN_NAME env →
     package_deps env easyblock = cfg_dependencies easyblock) ∧
  (toolchain_name easyblock ≠ DUMMY_TOOLCHAIN_NAME env →
     package_deps env easyblock = toolchain_as_dict easyblock :: cfg_dependencies easyblock).
Proof.
  unfold package_deps.
  destruct (String.eqb_spec (toolchain_name easyblock) (DUMMY_TOOLCHAIN_NAME env)); by split.
Qed.

(** C1.  Whenever [package_with_fpm] gets as far as assembling the
    command, the command handed to [run_cmd] is the tokens below joined by
    single spaces, in this order, with the string of [--depends] fragments
    as one token; the function then returns the work directory (an
    exception of the subprocess call is passed on). *)
Theorem package_with_fpm_command env easyblock st (workdir : string) self :
  mkdtemp env "eb-pkgs-" = Return workdir →
  os_chdir env workdir = Return tt →
  (ActivePNS_call env st).1 = Return self →
  let pkgname := pns_name (pns self) (cfg easyblock) in
  let pkgver := pns_version (pns self) (cfg easyblock) in
  let pkgrel := pns_release (pns self) in
  let depstring := depends_string self (package_deps env easyblock) in
  let cmd :=
    join " " [
      "fpm";
      "--workdir"; workdir;
      "--name"; pkgname;
      "--provides"; pkgname;
      "-t"; package_type env;
      "-s"; "dir";
      "--version"; pkgver;
      "--iteration"; pkgrel;
      depstring;
      installdir easyblock;
      module_generator_filename easyblock
    ] in
  commands (package_with_fpm env easyblock st).2 = commands st ++ [cmd] ∧
  cmd = "fpm --workdir " +:+ workdir +:+ " --name " +:+ pkgname
        +:+ " --provides " +:+ pkgname +:+ " -t " +:+ package_type env
        +:+ " -s dir --version " +:+ pkgver +:+ " --iteration " +:+ pkgrel
        +:+ " " +:+ depstring +:+ " " +:+ installdir easyblock
        +:+ " " +:+ module_generator_filename easyblock ∧
  (∀ b, run_cmd env cmd = Return b →
        (package_with_fpm env easyblock st).1 = Return workdir) ∧
  (∀ e, run_cmd env cmd = Raise e →
        (package_with_fpm env easyblock st).1 = Raise e).
Proof.
  intros Hmk Hcd Hpns pkgname pkgver pkgrel depstring cmd.
  pose proof (package_with_fpm_run env easyblock st workdir self Hmk Hcd Hpns) as E.
  cbv zeta in E. change PKG_TOOL_FPM with "fpm" in E.
  unfold name, version, release in E. fold pkgname pkgver pkgrel depstring in E.
  fold cmd in E. rewrite E. cbn [fst snd commands].
  split; [reflexivity|]. split; [reflexivity|].
  split; [by intros b ->|by intros e ->].
Qed.

(** C2.  The dependencies packaged are the toolchain, unless it is the
    dummy one, followed by the declared dependencies.  For N such
    dependencies the command has N [--depends] fragments, between the
    release and the installation directory: the i-th is
    [ --depends '<name>'] for the name the naming scheme gives the i-th
    dependency.  Without dependencies and with the dummy toolchain the
    string of fragments is empty. *)
Theorem package_with_fpm_depends env easyblock st (workdir : string) self :
  mkdtemp env "eb-pkgs-" = Return workdir →
  os_chdir env workdir = Return tt →
  (ActivePNS_call env st).1 = Return self →
  let deps := package_deps env easyblock in
  let fragments :=
    (fun dep => " --depends '" +:+ pns_name (pns self) dep +:+ "'") <$> deps in
  (toolchain_name easyblock = DUMMY_TOOLCHAIN_NAME env →
     deps = cfg_dependencies easyblock) ∧
  (toolchain_name easyblock ≠ DUMMY_TOOLCHAIN_NAME env →
     deps = toolchain_as_dict easyblock :: cfg_dependencies easyblock) ∧
  length fragments = length deps ∧
  (∀ i dep, deps !! i = Some dep →
     ∃ fragment, fragments !! i = Some fragment ∧
       fragment = " --depends '" +:+ pns_name (pns self) dep +:+ "'" ∧
       contains fragment (pns_name (pns self) dep) = true) ∧
  (Forall (fun dep => mem_ascii " " (pns_name (pns self) dep) = false) deps →
     count (join "" fragments) " --depends '" = length deps) ∧
  (∃ head,
     commands (package_with_fpm env easyblock st).2
     = commands st ++
       [head +:+ " " +:+ join "" fragments +:+ " " +:+ installdir easyblock
        +:+ " " +:+ module_generator_filename easyblock] ∧
     head = "fpm --workdir " +:+ workdir
            +:+ " --name " +:+ pns_name (pns self) (cfg easyblock)
            +:+ " --provides " +:+ pns_name (pns self) (cfg easyblock)
            +:+ " -t " +:+ package_type env +:+ " -s dir --version "
            +:+ pns_version (pns self) (cfg easyblock)
            +:+ " --iteration " +:+ pns_release (pns self)) ∧
  (cfg_dependencies easyblock = [] →
     toolchain_name easyblock = DUMMY_TOOLCHAIN_NAME env →
     depends_string self deps = "" ∧ fragments = []).
Proof.
  intros Hmk Hcd Hpns deps fragments.
  destruct (package_deps_cases env easyblock) as [Hdummy Htc].
  split; [exact Hdummy|]. split; [exact Htc|].
  split; [apply length_fmap|]. split; [|split; [|split]].
  - intros i dep Hi. eexists. split; [|split; [reflexivity|]].
    + unfold fragments. by rewrite list_lookup_fmap, Hi.
    + apply contains_mid.
  - apply count_fragments.
  - eexists. split; [|reflexivity].
    rewrite (package_with_fpm_run env easyblock st workdir self Hmk Hcd Hpns).
    cbn [snd commands]. do 2 f_equal. fold deps.
    rewrite (depends_string_fragments self deps). fold fragments.
    cbn [join]. change PKG_TOOL_FPM with "fpm". unfold name, version, release.
    rewrite !app_assoc. reflexivity.
  - intros Hnone Htriv. unfold fragments, deps.
    rewrite (Hdummy Htriv), Hnone. by split.
Qed.

(** What [package] raises when the selected tool is not FPM. *)
Lemma package_unknown_tool env easyblock st :
  package_tool env ≠ PKG_TOOL_FPM →
  package env easyblock st
  = (Raise (EasyBuildError ("Unknown packaging tool specified: " +:+ package_tool env)),
     st).
Proof.
  intros H. unfold package, bind, raise.
  by destruct (String.eqb_spec (package_tool env) PKG_TOOL_FPM).
Qed.

(** C6, as the code has it.  When [os.chdir] into the fresh work directory
    raises [OSError], [package_with_fpm] raises [EasyBuildError] with a
    message naming the work directory and the error, and leaves the
    process as it was.  This is the class of the errors raised for an
    unknown packaging tool and for an unknown naming scheme; it is not
    [IOError]. *)
Theorem package_with_fpm_chdir_failure env easyblock st (workdir err : string) :
  mkdtemp env "eb-pkgs-" = Return workdir →
  os_chdir env workdir = Raise (OSError err) →
  ∃ e, package_with_fpm env easyblock st = (Raise e, st) ∧
       e = EasyBuildError ("Failed to chdir into workdir " +:+ workdir +:+ ": " +:+ err) ∧
       class_of e = CEasyBuildError ∧
       class_of e ≠ CIOError ∧
       (∀ env' easyblock' st' e',
          package_tool env' ≠ PKG_TOOL_FPM →
          (package env' easyblock' st').1 = Raise e' → class_of e' = class_of e) ∧
       (∀ env' e', ActivePNS_init env' = Raise e' → class_of e' = class_of e).
Proof.
  intros Hmk Hcd. eexists. split; [|split; [reflexivity|]].
  - unfold package_with_fpm, bind, pure, chdir_workdir. by rewrite Hmk, Hcd.
  - split; [reflexivity|]. split; [discriminate|]. split.
    + intros env' easyblock' st' e' Htool.
      rewrite (package_unknown_tool env' easyblock' st' Htool). by intros [= <-].
    + intros env' e'. unfold ActivePNS_init.
      case_bool_decide as Hsel; [|by intros [= <-]].
      destruct Hsel as [cls Hcls]. unfold getitem. by rewrite Hcls.
Qed.

End PackagingFacts.

Section PackagingExamples.

Import PackageUtilities Examples.

Lemma package_with_fpm_command_witness :
  commands (package_with_fpm ready zlib_goolf fresh).2
  = ["fpm --workdir /tmp/eb-pkgs-k3Xq0L --name zlib-1.2.8 --provides zlib-1.2.8 -t rpm -s dir --version eb-2.2.0 --iteration 1  --depends 'goolf-1.4.10' --depends 'ncurses-5.9' --depends 'bzip2-1.0.6' /opt/software/zlib/1.2.8-goolf-1.4.10 /opt/modules/all/zlib/1.2.8-goolf-1.4.10"] ∧
  (package_with_fpm ready zlib_goolf fresh).1 = Return "/tmp/eb-pkgs-k3Xq0L".
Proof.
  pose proof (package_with_fpm_command ready zlib_goolf fresh "/tmp/eb-pkgs-k3Xq0L"
                {| pns := EasyBuildPNS |} eq_refl eq_refl eq_refl) as (Hc & _ & Hr & _).
  split; [exact Hc|]. exact (Hr true eq_refl).
Defined.

Lemma package_with_fpm_depends_witness :
  length (package_deps ready zlib_goolf) = 3%nat ∧
  count " --depends 'goolf-1.4.10' --depends 'ncurses-5.9' --depends 'bzip2-1.0.6'"
        " --depends '" = 3%nat ∧
  (∃ head,
     commands (package_with_fpm ready zlib_goolf fresh).2
     = [head +:+ " " +:+ " --depends 'goolf-1.4.10' --depends 'ncurses-5.9' --depends 'bzip2-1.0.6'"
        +:+ " " +:+ "/opt/software/zlib/1.2.8-goolf-1.4.10"
        +:+ " " +:+ "/opt/modules/all/zlib/1.2.8-goolf-1.4.10"]) ∧
  depends_string {| pns := EasyBuildPNS |} (package_deps ready java_dummy) = "".
Proof.
  pose proof (package_with_fpm_depends ready zlib_goolf fresh "/tmp/eb-pkgs-k3Xq0L"
                {| pns := EasyBuildPNS |} eq_refl eq_refl eq_refl)
    as (_ & _ & Hlen & _ & Hcount & (head & Hcmd & _) & _).
  pose proof (package_with_fpm_depends ready java_dummy fresh "/tmp/eb-pkgs-k3Xq0L"
                {| pns := EasyBuildPNS |} eq_refl eq_refl eq_refl)
    as (_ & _ & _ & _ & _ & _ & Hempty).
  split; [by rewrite <- Hlen|]. split; [apply Hcount; by repeat constructor|]. split.
  - exists head. exact Hcmd.
  - exact (proj1 (Hempty eq_refl eq_refl)).
Defined.

Lemma package_with_fpm_chdir_failure_witness :
  ∃ e, package_with_fpm workdir_denied zlib_goolf fresh = (Raise e, fresh) ∧
       class_of e = CEasyBuildError.
Proof.
  destruct (package_with_fpm_chdir_failure workdir_denied zlib_goolf fresh
              "/tmp/eb-pkgs-k3Xq0L"
              "[Errno 13] Permission denied: '/tmp/eb-pkgs-k3Xq0L'" eq_refl eq_refl)
    as (e & E & _ & Hc & _).
  exists e. by split.
Defined.

(** C6 as stated fails: the work directory cannot be entered, and what
    [package] raises is an [EasyBuildError], as it does for an unknown
    packaging tool; no [IOError] is raised. *)
Lemma package_chdir_denied_not_IOError :
  os_chdir workdir_denied "/tmp/eb-pkgs-k3Xq0L"
  = Raise (OSError "[Errno 13] Permission denied: '/tmp/eb-pkgs-k3Xq0L'") ∧
  (package workdir_denied zlib_goolf fresh).1
  = Raise (EasyBuildError
      "Failed to chdir into workdir /tmp/eb-pkgs-k3Xq0L: [Errno 13] Permission denied: '/tmp/eb-pkgs-k3Xq0L'") ∧
  (∀ msg, (package workdir_denied zlib_goolf fresh).1 ≠ Raise (IOError msg)) ∧
  (package unknown_tool zlib_goolf fresh).1
  = Raise (EasyBuildError "Unknown packaging tool specified: alien").
Proof.
  split; [reflexivity|]. split; [reflexivity|].
  split; [|reflexivity]. intros msg. vm_compute. discriminate.
Qed.

End PackagingExamples.

(** ** More on packaging *)

Section PackagingMore.

Import PackageUtilities Examples.

Context {EC : Type}.
Implicit Types (env : Env EC) (st : State EC) (easyblock : EasyBlock EC)
  (self : ActivePNS EC).

(** [ActivePNS()] never changes the working directory or the commands. *)
Lemma ActivePNS_call_frame env st :
  cwd (ActivePNS_call env st).2 = cwd st ∧
  commands (ActivePNS_call env st).2 = commands st.
Proof.
  unfold ActivePNS_call. destruct (instance st); [done|].
  by destruct (ActivePNS_init env).
Qed.

(** The command [package_with_fpm] assembles starts with the tool and the
    work directory option. *)
Lemma package_with_fpm_commands env easyblock st :
  commands (package_with_fpm env easyblock st).2 = commands st ∨
  ∃ cmd, commands (package_with_fpm env easyblock st).2 = commands st ++ [cmd] ∧
         startswith cmd "fpm --workdir " = true.
Proof.
  destruct (mkdtemp env "eb-pkgs-") as [workdir|e] eqn:Hmk.
  2:{ left. unfold package_with_fpm, bind, pure. by rewrite Hmk. }
  destruct (os_chdir env workdir) as [[]|e] eqn:Hcd.
  2:{ left. unfold package_with_fpm, bind, pure, chdir_workdir. rewrite Hmk, Hcd.
      by destruct e. }
  destruct (ActivePNS_call env st).1 as [self|e] eqn:Hpns.
  - right. eexists.
    rewrite (package_with_fpm_run env easyblock st workdir self Hmk Hcd Hpns).
    split; [reflexivity|]. reflexivity.
  - left. unfold package_with_fpm, bind, pure, chdir_workdir. rewrite Hmk, Hcd.
    revert Hpns. unfold ActivePNS_call. cbn [instance].
    destruct (instance st); [done|].
    by destruct (ActivePNS_init env).
Qed.

Lemma package_fpm env easyblock st :
  package_tool env = PKG_TOOL_FPM →
  package env easyblock st = package_with_fpm env easyblock st.
Proof.
  intros H. unfold package, bind. rewrite H, String.eqb_refl.
  by destruct (package_with_fpm env easyblock st) as [[?|?] ?].
Qed.

(** X1.  [package] hands at most one command to [run_cmd], and that
    command starts with [fpm --workdir ]; for a packaging tool other than
    FPM it raises an [EasyBuildError] whose message contains the name of
    the tool, runs nothing and leaves the process as it was. *)
Theorem package_runs_fpm_only env easyblock st :
  (commands (package env easyblock st).2 = commands st ∨
   ∃ cmd, commands (package env easyblock st).2 = commands st ++ [cmd] ∧
          startswith cmd "fpm --workdir " = true) ∧
  (package_tool env ≠ PKG_TOOL_FPM →
     ∃ msg, package env easyblock st = (Raise (EasyBuildError msg), st) ∧
            contains msg (package_tool env) = true).
Proof.
  split.
  - destruct (decide (package_tool env = PKG_TOOL_FPM)) as [H|H].
    + rewrite (package_fpm env easyblock st H). apply package_with_fpm_commands.
    + left. by rewrite (package_unknown_tool env easyblock st H).
  - intros H. eexists. split; [by apply package_unknown_tool|].
    apply contains_app_r, contains_refl.
Qed.

(** X2.  Once [os.chdir] into the work directory has succeeded,
    [package_with_fpm] leaves the process in the work directory whatever
    happens next; when the naming scheme cannot be resolved the error of
    [ActivePNS] is raised and no command is run. *)
Theorem package_with_fpm_stays_in_workdir env easyblock st (workdir : string) :
  mkdtemp env "eb-pkgs-" = Return workdir →
  os_chdir env workdir = Return tt →
  cwd (package_with_fpm env easyblock st).2 = workdir ∧
  (∀ e, (ActivePNS_call env st).1 = Raise e →
        package_with_fpm env easyblock st
        = (Raise e, {| cwd := workdir; instance := None; commands := commands st |})).
Proof.
  intros Hmk Hcd.
  destruct (ActivePNS_call env st).1 as [self|e] eqn:Hpns.
  - rewrite (package_with_fpm_run env easyblock st workdir self Hmk Hcd Hpns).
    split; [reflexivity|]. intros e [=].
  - assert (package_with_fpm env easyblock st
            = (Raise e, {| cwd := workdir; instance := None; commands := commands st |}))
      as E.
    { unfold package_with_fpm, bind, pure, chdir_workdir. rewrite Hmk, Hcd.
      revert Hpns. unfold ActivePNS_call. cbn [instance].
      destruct (instance st); [done|].
      destruct (ActivePNS_init env); [done|]. by intros [= ->]. }
    split; [by rewrite E|]. by intros e' [= <-].
Qed.

(** X3.  In the dictionary of naming schemes each discovered class name is
    a key; of several classes with one name the last discovered is kept,
    so with distinct names every class is found under its name. *)
Theorem avail_package_naming_schemes_lookup env :
  (∀ n, is_Some (avail_package_naming_schemes env !! n) ↔ n ∈ (get_subclasses env).*1) ∧
  (∀ before after n cls,
     get_subclasses env = before ++ (n, cls) :: after → n ∉ after.*1 →
     avail_package_naming_schemes env !! n = Some cls) ∧
  (NoDup (get_subclasses env).*1 →
     ∀ n cls, (n, cls) ∈ get_subclasses env →
              avail_package_naming_schemes env !! n = Some cls).
Proof.
  assert (∀ (pairs : list (string * PackageNamingScheme EC))
            (d : gmap string (PackageNamingScheme EC)) n,
            n ∉ pairs.*1 →
            fold_left (fun d kv => <[kv.1 := kv.2]> d) pairs d !! n = d !! n) as Hkeep.
  { induction pairs as [|[k v] pairs IH]; intros d n Hn; [done|].
    cbn [fold_left fst snd]. rewrite fmap_cons, not_elem_of_cons in Hn.
    destruct Hn as [Hk Hn]. rewrite (IH _ _ Hn). by apply lookup_insert_ne. }
  assert (∀ before after n cls,
            get_subclasses env = before ++ (n, cls) :: after → n ∉ after.*1 →
            avail_package_naming_schemes env !! n = Some cls) as Hlast.
  { intros before after n cls E Hn. unfold avail_package_naming_schemes, dict.
    rewrite E, fold_left_app. cbn [fold_left fst snd].
    rewrite (Hkeep _ _ _ Hn). apply lookup_insert_eq. }
  split; [|split; [exact Hlast|]].
  - intros n. unfold avail_package_naming_schemes. apply dict_is_Some.
  - intros Hnd n cls Hin.
    apply list_elem_of_split in Hin as (before & after & E).
    apply (Hlast before after n cls E).
    rewrite E, fmap_app, fmap_cons in Hnd.
    apply NoDup_app in Hnd as (_ & _ & Hnd). by apply NoDup_cons in Hnd as [? _].
Qed.

End PackagingMore.

Section SupportCheckMore.

Import PackageUtilities Examples.

Context {EC : Type}.
Implicit Types (env : Env EC) (st : State EC).

(** X4.  [check_pkg_support] never changes the process, and when it
    returns, the gate for experimental functionality was passed, the
    packaging tool is on PATH and, for FPM with package type RPM, so is
    [rpmbuild]. *)
Theorem check_pkg_support_sound env st :
  (check_pkg_support env st).2 = st ∧
  ((check_pkg_support env st).1 = Return tt →
     log_experimental env "Support for packaging installed software." = Return tt ∧
     found (which env (package_tool env)) = true ∧
     (package_tool env = PKG_TOOL_FPM → package_type env = PKG_TYPE_RPM →
        found (which env "rpmbuild") = true)).
Proof.
  unfold check_pkg_support, bind, pure, ret, raise.
  destruct (log_experimental env _) as [[]|e]; [|by split].
  destruct (found (which env (package_tool env))); [|by split].
  destruct (String.eqb_spec (package_tool env) PKG_TOOL_FPM) as [Ht|Ht];
    [|split; [done|]; intros _; repeat split; done].
  destruct (String.eqb_spec (package_type env) PKG_TYPE_RPM) as [Hp|Hp];
    [|split; [done|]; intros _; repeat split; done].
  cbn [andb]. destruct (found (which env "rpmbuild")); by split.
Qed.

End SupportCheckMore.

Section PackagingMoreExamples.

Import PackageUtilities Examples.

Lemma package_runs_fpm_only_witness :
  ∃ msg, package unknown_tool zlib_goolf fresh = (Raise (EasyBuildError msg), fresh) ∧
         contains msg "alien" = true.
Proof.
  apply (proj2 (package_runs_fpm_only unknown_tool zlib_goolf fresh)). discriminate.
Defined.

Lemma package_with_fpm_stays_in_workdir_witness :
  cwd (package_with_fpm unknown_pns zlib_goolf fresh).2 = "/tmp/eb-pkgs-k3Xq0L" ∧
  commands (package_with_fpm unknown_pns zlib_goolf fresh).2 = [].
Proof.
  destruct (package_with_fpm_stays_in_workdir unknown_pns zlib_goolf fresh
              "/tmp/eb-pkgs-k3Xq0L" eq_refl eq_refl) as [Hcwd Hraise].
  split; [exact Hcwd|].
  by rewrite (Hraise (EasyBuildError
    "Selected package naming scheme MyPNS could not be found in ['EasyBuildPNS']") eq_refl).
Defined.

Lemma avail_package_naming_schemes_lookup_witness :
  avail_package_naming_schemes ready !! "EasyBuildPNS" = Some EasyBuildPNS ∧
  avail_package_naming_schemes two_schemes !! "SitePNS" = Some SitePNS_v2.
Proof.
  split.
  - apply (proj2 (proj2 (avail_package_naming_schemes_lookup ready))).
    + repeat constructor. by intros ?%elem_of_nil.
    + by constructor.
  - apply (proj1 (proj2 (avail_package_naming_schemes_lookup two_schemes))
             [("EasyBuildPNS", EasyBuildPNS); ("SitePNS", SitePNS_v1)] []).
    + reflexivity.
    + by intros ?%elem_of_nil.
Defined.

Lemma check_pkg_support_sound_witness :
  found (which ready "fpm") = true ∧ found (which ready "rpmbuild") = true.
Proof.
  destruct (proj2 (check_pkg_support_sound ready fresh) eq_refl) as (_ & Htool & Hrpm).
  split; [exact Htool|]. by apply Hrpm.
Defined.

End PackagingMoreExamples.

(** ** More on the system probes *)

Section SystemToolsMore.

Import SystemTools Examples.

Lemma get_shared_lib_ext_by_system_type_cases (h : Host) :
  (platform_system h = "Linux" → get_shared_lib_ext h = Return "so") ∧
  (platform_system h = "Darwin" → get_shared_lib_ext h = Return "dylib") ∧
  (platform_system h ≠ "Linux" → platform_system h ≠ "Darwin" →
     ∃ msg, get_shared_lib_ext h = Raise (SystemToolsException msg)).
Proof.
  split; [|split].
  - intros H. unfold get_shared_lib_ext, get_system_type. rewrite H. reflexivity.
  - intros H. unfold get_shared_lib_ext, get_system_type. rewrite H. reflexivity.
  - intros Hl Hd. unfold get_shared_lib_ext.
    destruct (decide (platform_system h = "")) as [He|He].
    + destruct (get_system_type_empty h He) as [msg ->]. by exists msg.
    + rewrite (get_system_type_nonempty h He). cbn [mbind result_bind].
      rewrite bool_decide_eq_false_2; [eauto|].
      rewrite elem_of_keys, shared_lib_exts_lookup.
      rewrite !decide_False by done. by intros [? ?].
Qed.

Lemma get_platform_name_returns (withversion : bool) (h : Host) (name : string) :
  get_platform_name withversion h = Return name →
  platform_system h = "Linux" ∨ platform_system h = "Darwin".
Proof.
  unfold get_platform_name, get_system_type.
  destruct (0 <? String.length (platform_system h))%nat; [|done]. cbn [mbind result_bind].
  destruct (String.eqb_spec (platform_system h) "Linux"); [auto|].
  destruct (String.eqb_spec (platform_system h) "Darwin"); [auto|done].
Qed.

(** X5.  The platform name and the extension of shared libraries are known
    for the same machines: [get_platform_name], with or without version,
    returns exactly when [get_shared_lib_ext] does, that is when the
    system type is Linux or Darwin; otherwise both raise
    [SystemToolsException]. *)
Theorem get_platform_name_defined_with_shared_lib_ext (withversion : bool) (h : Host) :
  ((∃ name, get_platform_name withversion h = Return name) ↔
   (∃ ext, get_shared_lib_ext h = Return ext)) ∧
  ((∃ ext, get_shared_lib_ext h = Return ext) ↔
   platform_system h = "Linux" ∨ platform_system h = "Darwin") ∧
  ((∃ msg, get_platform_name withversion h = Raise (SystemToolsException msg)) ∨
   (∃ name, get_platform_name withversion h = Return name)).
Proof.
  destruct (get_shared_lib_ext_by_system_type_cases h) as (Hl & Hd & Ho).
  assert ((∃ ext, get_shared_lib_ext h = Return ext) ↔
          platform_system h = "Linux" ∨ platform_system h = "Darwin") as Hext.
  { split.
    - intros [ext E].
      destruct (decide (platform_system h = "Linux")) as [|Hnl]; [auto|].
      destruct (decide (platform_system h = "Darwin")) as [|Hnd]; [auto|].
      destruct (Ho Hnl Hnd) as [msg E']. congruence.
    - intros [H|H]; [rewrite (Hl H)|rewrite (Hd H)]; eauto. }
  assert (platform_system h = "Linux" ∨ platform_system h = "Darwin" →
          ∃ name, get_platform_name withversion h = Return name) as Hname.
  { unfold get_platform_name, get_system_type. intros [H|H]; rewrite H; cbn; eauto. }
  split; [|split; [exact Hext|]].
  - rewrite Hext. split; [|exact Hname].
    intros [name E]. by eapply get_platform_name_returns.
  - destruct (decide (platform_system h = "Linux")) as [|Hnl]; [right; auto|].
    destruct (decide (platform_system h = "Darwin")) as [|Hnd]; [right; auto|].
    left. unfold get_platform_name, get_system_type.
    destruct (0 <? String.length (platform_system h))%nat; [|eauto].
    cbn [mbind result_bind].
    destruct (String.eqb_spec (platform_system h) "Linux"); [done|].
    destruct (String.eqb_spec (platform_system h) "Darwin"); [done|]. eauto.
Qed.

(** X6.  The platform name with version is the name without version
    followed by "-gnu" on Linux and by the release on Darwin; the name
    without version does not depend on the release. *)
Theorem get_platform_name_version_suffix (h : Host) (short : string) :
  get_platform_name false h = Return short →
  (∃ suffix, get_platform_name true h = Return (short +:+ suffix) ∧
             ((platform_system h = "Linux" ∧ suffix = "-gnu") ∨
              (platform_system h = "Darwin" ∧ suffix = platform_release h))) ∧
  (∀ long, get_platform_name true h = Return long → startswith long short = true) ∧
  (∀ h', platform_system h' = platform_system h →
         platform_machine h' = platform_machine h →
         get_platform_name false h' = Return short).
Proof.
  intros E.
  assert (∃ suffix, get_platform_name true h = Return (short +:+ suffix) ∧
             ((platform_system h = "Linux" ∧ suffix = "-gnu") ∨
              (platform_system h = "Darwin" ∧ suffix = platform_release h))) as Hs.
  { destruct (get_platform_name_returns false h short E) as [H|H];
      revert E; unfold get_platform_name, get_system_type; rewrite H; cbn;
      intros [= <-]; eexists; (split; [|eauto]); rewrite !app_assoc; reflexivity. }
  split; [exact Hs|]. split.
  - destruct Hs as (suffix & -> & _). intros long [= <-]. apply startswith_app.
  - intros h' Hsys Hm. rewrite <- E. unfold get_platform_name, get_system_type.
    rewrite Hsys, Hm.
    destruct (0 <? String.length (platform_system h))%nat; [|done].
    cbn [mbind result_bind].
    destruct (String.eqb (platform_system h) "Linux"); [done|].
    by destruct (String.eqb (platform_system h) "Darwin").
Qed.

End SystemToolsMore.

(** ** More on the distribution name and version *)

Section DistributionMore.

Import SystemTools Examples.

Lemma isspace_lower_ascii (c : ascii) : isspace (lower_ascii c) = isspace c.
Proof. by destruct c as [[] [] [] [] [] [] [] []]. Qed.

Lemma lower_ascii_idem (c : ascii) : lower_ascii (lower_ascii c) = lower_ascii c.
Proof. by destruct c as [[] [] [] [] [] [] [] []]. Qed.

Lemma lower_idem (s : string) : lower (lower s) = lower s.
Proof. induction s as [|c s IH]; [done|]. cbn [lower]. by rewrite lower_ascii_idem, IH. Qed.

Lemma lstrip_lower (s : string) : lstrip (lower s) = lower (lstrip s).
Proof.
  induction s as [|c s IH]; [done|]. cbn [lower lstrip].
  rewrite isspace_lower_ascii. by destruct (isspace c).
Qed.

Lemma rstrip_lower (s : string) : rstrip (lower s) = lower (rstrip s).
Proof.
  induction s as [|c s IH]; [done|]. cbn [lower rstrip]. rewrite IH.
  destruct (rstrip s); cbn [lower]; [|done].
  rewrite isspace_lower_ascii. by destruct (isspace c).
Qed.

Lemma strip_lower (s : string) : strip (lower s) = lower (strip s).
Proof. unfold strip. by rewrite lstrip_lower, rstrip_lower. Qed.

Lemma rstrip_idem (s : string) : rstrip (rstrip s) = rstrip s.
Proof.
  induction s as [|c s IH]; [done|]. cbn [rstrip].
  destruct (rstrip s) as [|d r] eqn:E.
  - destruct (isspace c) eqn:Hc; [done|]. cbn [rstrip]. by rewrite Hc.
  - remember (String d r) as x eqn:Hx.
    cbn [rstrip]. rewrite IH. by subst x.
Qed.

Lemma rstrip_head (c : ascii) (s : string) :
  isspace c = false → ∃ r, rstrip (String c s) = String c r.
Proof.
  intros Hc. cbn [rstrip]. destruct (rstrip s); [rewrite Hc|]; eauto.
Qed.

Lemma lstrip_head (s : string) :
  lstrip s = "" ∨ ∃ c t, lstrip s = String c t ∧ isspace c = false.
Proof.
  induction s as [|c s IH]; [by left|]. cbn [lstrip].
  destruct (isspace c) eqn:Hc; [done|]. right. eauto.
Qed.

(** Stripping twice is stripping once. *)
Lemma strip_idem (s : string) : strip (strip s) = strip s.
Proof.
  unfold strip. destruct (lstrip_head s) as [->|(c & t & -> & Hc)]; [done|].
  destruct (rstrip_head c t Hc) as [r E]. rewrite E.
  cbn [lstrip]. rewrite Hc, <- E. apply rstrip_idem.
Qed.

Lemma system_name_map_get (k : string) :
  get system_name_map k k = "RHEL" ∨ get system_name_map k k = "SL"
  ∨ get system_name_map k k = k.
Proof.
  unfold get, system_name_map, dict. cbn [fold_left fst snd].
  rewrite lookup_insert. case_decide; [auto|].
  rewrite lookup_insert. case_decide; [auto|].
  rewrite lookup_insert. case_decide; [auto|].
  rewrite lookup_empty. auto.
Qed.

(** X7.  A name returned by [get_system_name] is never empty: it is one of
    RHEL, SL and UNKNOWN_SYSTEM_NAME, or else the name reported by
    [platform.linux_distribution] without surrounding whitespace and in
    lower case. *)
Theorem get_system_name_normal_form (h : Host) (name : string) :
  get_system_name h = Return name →
  name ≠ "" ∧
  (name = "RHEL" ∨ name = "SL" ∨ name = "UNKNOWN_SYSTEM_NAME" ∨
   (∃ d, platform_linux_distribution h = Some d ∧ name = lower (strip d.1.1) ∧
         lower name = name ∧ strip name = name)).
Proof.
  destruct (platform_linux_distribution h) as [d|] eqn:Hd.
  2:{ by rewrite (get_system_name_without_linux_distribution h Hd). }
  rewrite (get_system_name_with_linux_distribution h d Hd). cbv zeta.
  intros [= <-]. destruct (truthy (lower (strip d.1.1))) eqn:Ht; [|split; [done|auto]].
  destruct (system_name_map_get (lower (strip d.1.1))) as [-> | [-> | ->]];
    [split; [done|auto]..|].
  split.
  - intros E. by rewrite E in Ht.
  - do 3 right. exists d. split; [done|]. split; [done|].
    split; [apply lower_idem|]. by rewrite strip_lower, strip_idem.
Qed.

(** X8.  A version returned by [get_system_version] is never empty: it is
    what [platform.dist] reports, unchanged, or UNKNOWN_SYSTEM_VERSION when
    that is empty; in the latter case the distribution name is not asked
    for, so the function returns even where [get_system_name] raises. *)
Theorem get_system_version_verbatim (h : Host) :
  (∀ version, get_system_version h = Return version →
     version ≠ "" ∧
     ((platform_dist h).1.2 ≠ "" ∧ version = (platform_dist h).1.2 ∨
      (platform_dist h).1.2 = "" ∧ version = "UNKNOWN_SYSTEM_VERSION")) ∧
  ((platform_dist h).1.2 = "" → get_system_version h = Return "UNKNOWN_SYSTEM_VERSION") ∧
  (∀ e, (platform_dist h).1.2 ≠ "" → get_system_name h = Raise e →
        get_system_version h = Raise e).
Proof.
  unfold get_system_version. split; [|split].
  - intros version. destruct (platform_dist h).1.2 as [|c v] eqn:Hv.
    { cbn [truthy]. intros [= <-]. split; [done|]. by right. }
    cbn [truthy]. destruct (get_system_name h) as [name|e]; [|done].
    cbn [mbind result_bind].
    destruct (String.eqb name "suse"); [|intros [= <-]; split; [done|by left]].
    destruct (String.eqb (String c v) "11"); [done|].
    intros [= <-]; split; [done|by left].
  - by intros ->.
  - intros e Hv Hname. destruct (platform_dist h).1.2; [done|].
    cbn [truthy]. by rewrite Hname.
Qed.

End DistributionMore.

Section DistributionMoreExamples.

Import SystemTools Examples.

Lemma get_platform_name_version_suffix_witness :
  get_platform_name true mac = Return ("x86_64-apple-darwin" +:+ "13.4.0") ∧
  get_platform_name true rhel6 = Return ("x86_64-unknown-linux" +:+ "-gnu").
Proof.
  split.
  - destruct (proj1 (get_platform_name_version_suffix mac "x86_64-apple-darwin" eq_refl))
      as (suffix & E & [[Hsys _]|[_ ->]]); [discriminate Hsys|exact E].
  - destruct (proj1 (get_platform_name_version_suffix rhel6 "x86_64-unknown-linux" eq_refl))
      as (suffix & E & [[_ ->]|[Hsys _]]); [exact E|discriminate Hsys].
Defined.

Lemma get_system_name_normal_form_witness :
  "centos" ≠ "" ∧ lower "centos" = "centos".
Proof.
  destruct (get_system_name_normal_form centos6 "centos" eq_refl)
    as (Hne & [[=]|[[=]|[[=]|(d & _ & _ & Hlow & _)]]]).
  by split.
Defined.

Lemma get_system_version_verbatim_witness :
  get_system_version mac = Return "UNKNOWN_SYSTEM_VERSION" ∧
  get_system_version rhel5_python25
  = Raise (NameError "global name 'AttributeErrror' is not defined").
Proof.
  split.
  - apply (proj1 (proj2 (get_system_version_verbatim mac))). reflexivity.
  - apply (proj2 (proj2 (get_system_version_verbatim rhel5_python25))).
    + discriminate.
    + reflexivity.
Defined.

End DistributionMoreExamples.

(** ** More on the number of cores *)

Section CoreCountMore.

Import SystemTools Examples.

(** X9.  Each source of [get_core_count] is guarded against the listed
    exceptions only.  When the native API is missing and [os.sysconf]
    raises anything but [AttributeError] or [ValueError] (an [OSError],
    say), that exception is raised and [/proc/cpuinfo] is not read; in the
    same way an exception of [run_cmd] other than [ValueError] is raised
    once the first three sources are passed over. *)
Theorem get_core_count_unguarded (h : Host) (e : exn) :
  (core_count_native h = Return None →
   os_sysconf h "SC_NPROCESSORS_ONLN" = Raise e →
   class_of e ≠ CAttributeError → class_of e ≠ CValueError →
   get_core_count h = Raise e) ∧
  (core_count_native h = Return None →
   core_count_posix h = Return None →
   open_read h "/proc/cpuinfo" = Raise e →
   class_of e ≠ CIOError →
   get_core_count h = Raise e) ∧
  (core_count_native h = Return None →
   core_count_posix h = Return None →
   core_count_linux h = Return None →
   run_cmd h "sysctl -n hw.ncpu" = Raise e →
   class_of e ≠ CValueError →
   get_core_count h = Raise e).
Proof.
  assert (∀ (c1 c2 : exn_class), class_of e ≠ c1 → class_of e ≠ c2 →
            bool_decide (class_of e ∈ [c1; c2]) = false) as H2.
  { intros c1 c2 H1 H2. apply bool_decide_eq_false_2.
    intros [?|[?|[]%elem_of_nil]%elem_of_cons]%elem_of_cons; done. }
  assert (∀ (c1 : exn_class), class_of e ≠ c1 →
            bool_decide (class_of e ∈ [c1]) = false) as H1.
  { intros c1 H1. apply bool_decide_eq_false_2.
    intros [?|[]%elem_of_nil]%elem_of_cons; done. }
  unfold get_core_count. split; [|split].
  - intros -> Hs Ha Hv. unfold core_count_posix. rewrite Hs.
    cbn [mbind result_bind try_pass or_else]. by rewrite (H2 _ _ Ha Hv).
  - intros -> -> Hr Hi. unfold core_count_linux. rewrite Hr.
    cbn [mbind result_bind try_pass or_else]. by rewrite (H1 _ Hi).
  - intros -> -> -> Hr Hv. unfold core_count_bsd. rewrite Hr.
    cbn [mbind result_bind try_pass or_else]. by rewrite (H1 _ Hv).
Qed.

Lemma get_core_count_unguarded_witness :
  get_core_count sysconf_broken = Raise (OSError "[Errno 22] Invalid argument").
Proof.
  apply (proj1 (get_core_count_unguarded sysconf_broken
                  (OSError "[Errno 22] Invalid argument"))).
  - reflexivity.
  - reflexivity.
  - discriminate.
  - discriminate.
Defined.

End CoreCountMore.

(** ** Regular expressions *)

Section RegexpFacts.

Implicit Types (k : string → option ascii → string → option string)
  (items : list re_item) (prev : option ascii).

Lemma match_chars_inv (lit : string) prev (rest : string) p (r : string) :
  match_chars lit prev rest = Some (p, r) → rest = lit +:+ r.
Proof.
  revert prev rest. induction lit as [|a lit IH]; intros prev rest; cbn [match_chars].
  - by intros [= _ ->].
  - destruct rest as [|c rest]; [done|].
    destruct (Ascii.eqb_spec a c) as [->|]; [|done].
    intros ->%IH. reflexivity.
Qed.

(** A match of a pattern that opens with [^] and literal characters
    starts with these characters. *)
Lemma match_items_literal items (lit group : string) prev (s g : string) :
  match_items (Bol :: Chars lit :: items) group prev s = Some g →
  startswith s lit = true.
Proof.
  cbn [match_items]. destruct (at_bol prev); [|done].
  destruct (match_chars lit prev s) as [[p r]|] eqn:E; [|done].
  intros _. apply match_chars_inv in E as ->. apply startswith_app.
Qed.

(** No match in a text that does not contain the literal characters. *)
Lemma search_from_no_literal items (lit : string) prev (s : string) :
  contains s lit = false → search_from (Bol :: Chars lit :: items) prev s = None.
Proof.
  revert prev. induction s as [|c s IH]; intros prev; cbn [contains].
  - rewrite orb_false_r. intros H. unfold search_from.
    destruct (match_items _ _ _ _) as [g|] eqn:E; [|done].
    apply match_items_literal in E. congruence.
  - intros [Hs Hc]%orb_false_iff. cbn [search_from].
    destruct (match_items _ _ _ _) as [g|] eqn:E.
    + apply match_items_literal in E. congruence.
    + by apply IH.
Qed.

Lemma startswith_app_inv (s rest lit : string) :
  startswith (s +:+ rest) lit = true →
  startswith s lit = true ∨ ∃ t, lit = s +:+ t.
Proof.
  revert lit. induction s as [|c s IH]; intros lit; [right; by exists lit|].
  destruct lit as [|a lit]; [by left|].
  change (String c s +:+ rest) with (String c (s +:+ rest)). cbn [startswith].
  destruct (Ascii.eqb_spec a c) as [->|]; [|done].
  intros [H|[t ->]]%IH; [by left|right; by exists t].
Qed.

Lemma mem_ascii_app (c : ascii) (s t : string) :
  mem_ascii c (s +:+ t) = mem_ascii c s || mem_ascii c t.
Proof.
  induction s as [|d s IH]; [done|].
  change (String d s +:+ t) with (String d (s +:+ t)). cbn [mem_ascii].
  by rewrite IH, orb_assoc.
Qed.

(** Complete lines without the literal characters are passed over: the
    search goes on at the start of the next line. *)
Lemma search_from_next_line items (lit pre rest : string) prev :
  lit ≠ "" → mem_ascii "010" lit = false →
  contains (pre +:+ String "010" "") lit = false →
  search_from (Bol :: Chars lit :: items) prev ((pre +:+ String "010" "") +:+ rest)
  = search_from (Bol :: Chars lit :: items) (Some "010"%char) rest.
Proof.
  intros Hlit Hnl. revert prev.
  assert (∀ s, mem_ascii "010" s = true → contains s lit = false →
               startswith (s +:+ rest) lit = false) as Hno.
  { intros s Hs Hc. destruct (startswith (s +:+ rest) lit) eqn:E; [|done].
    apply startswith_app_inv in E as [E|[t ->]].
    - destruct s; cbn [contains] in Hc; by rewrite E in Hc.
    - by rewrite mem_ascii_app, Hs in Hnl. }
  induction pre as [|c pre IH]; intros prev Hc.
  - change (("" +:+ String "010" "") +:+ rest) with (String "010" rest).
    cbn [search_from].
    destruct (match_items _ _ _ _) as [g|] eqn:E; [|done].
    apply match_items_literal in E.
    pose proof (Hno (String "010" "") eq_refl Hc) as Hf.
    change (String "010" "" +:+ rest) with (String "010" rest) in Hf. congruence.
  - change ((String c pre +:+ String "010" "") +:+ rest)
      with (String c ((pre +:+ String "010" "") +:+ rest)).
    cbn [search_from].
    destruct (match_items _ _ _ _) as [g|] eqn:E.
    + apply match_items_literal in E.
      assert (mem_ascii "010" (String c pre +:+ String "010" "") = true) as Hm.
      { rewrite mem_ascii_app. apply orb_true_iff. by right. }
      pose proof (Hno _ Hm Hc) as Hf.
      change ((String c pre +:+ String "010" "") +:+ rest)
        with (String c ((pre +:+ String "010" "") +:+ rest)) in Hf. congruence.
    + apply IH.
      change (String c pre +:+ String "010" "")
        with (String c (pre +:+ String "010" "")) in Hc.
      cbn [contains] in Hc. by apply orb_false_iff in Hc as [_ ?].
Qed.

Lemma ends_line_inv (s : string) :
  ends_line s = true → s = "" ∨ ∃ pre, s = pre +:+ String "010" "".
Proof.
  destruct s as [|c s]; [by left|]. intros H. right. unfold ends_line in H.
  revert c H. induction s as [|d s IH]; intros c.
  - cbn. rewrite orb_false_r. destruct (Ascii.eqb_spec c "010") as [->|]; [|done].
    by exists "".
  - cbn [endswith]. intros [H|H]%orb_true_iff.
    + apply String.eqb_eq in H. by destruct s.
    + destruct (IH d H) as [pre ->]. by exists (String c pre).
Qed.

(** In a text that begins with complete lines without the literal
    characters, the first match is a match at the start of what follows. *)
Lemma search_after_lines items (lit before line g : string) :
  lit ≠ "" → mem_ascii "010" lit = false →
  ends_line before = true → contains before lit = false →
  (∀ prev, at_bol prev = true →
           match_items (Bol :: Chars lit :: items) "" prev line = Some g) →
  search (Bol :: Chars lit :: items) (before +:+ line) = Some g.
Proof.
  intros Hlit Hnl Hb Hc Hm. unfold search.
  assert (∀ prev, at_bol prev = true →
            search_from (Bol :: Chars lit :: items) prev line = Some g) as Hs.
  { intros prev Hp. destruct line; cbn [search_from]; by rewrite (Hm prev Hp). }
  destruct (ends_line_inv before Hb) as [->|[pre ->]]; [by apply Hs|].
  rewrite search_from_next_line by done. by apply Hs.
Qed.

(** A greedy repetition over [w], all in the class and followed by a
    character outside it, takes all of [w] when the rest of the pattern
    then matches. *)
Lemma many_greedy k (min : nat) (cls : ascii → bool) (w r g : string) :
  all_chars cls w = true →
  match r with "" => true | String c _ => negb (cls c) end = true →
  ∀ n taken prev,
    (min ≤ n + String.length w)%nat →
    (∀ p, k (taken +:+ w) p r = Some g) →
    many k min cls n taken prev (w +:+ r) = Some g.
Proof.
  intros Hw Hr. induction w as [|c w IH]; intros n taken prev Hmin Hk.
  - rewrite app_nil_r in Hk. cbn [String.length] in Hmin.
    change ("" +:+ r) with r.
    assert ((min <=? n)%nat = true) as Hle by (apply Nat.leb_le; lia).
    destruct r as [|c r]; cbn [many]; rewrite Hle; [apply Hk|].
    apply negb_true_iff in Hr. rewrite Hr. apply Hk.
  - cbn [all_chars] in Hw. apply andb_true_iff in Hw as [Hc Hw].
    change (String c w +:+ r) with (String c (w +:+ r)). cbn [many]. rewrite Hc.
    rewrite (IH Hw (S n) (taken +:+ String c "") (Some c)); [done| |].
    + cbn [String.length] in Hmin. lia.
    + intros p. rewrite app_assoc. apply Hk.
Qed.

(** The closing [\s*$]: whitespace is given back until the end of a line
    is found. *)
Lemma many_eol (group : string) (cls : ascii → bool) (rest : string) :
  at_eol rest = true →
  ∀ n taken prev,
    many (fun _ p r => match_items [Eol] group p r) 0 cls n taken prev rest = Some group.
Proof.
  intros He.
  assert (∀ rest n taken prev g,
            many (fun _ p r => match_items [Eol] group p r) 0 cls n taken prev rest
            = Some g → g = group) as Hsame.
  { clear. induction rest as [|c rest IH]; intros n taken prev g; cbn [many match_items].
    - destruct (at_eol ""); by intros [= <-].
    - destruct (cls c).
      + destruct (many _ 0 cls (S n) _ _ rest) as [g'|] eqn:E.
        * intros [= <-]. by eapply IH.
        * destruct (at_eol _); by intros [= <-].
      + destruct (at_eol _); by intros [= <-]. }
  intros n taken prev. destruct rest as [|c rest]; cbn [many match_items].
  - by rewrite He.
  - rewrite He. destruct (cls c); [|done].
    destruct (many _ 0 cls (S n) _ _ rest) as [g'|] eqn:E; [|done].
    by rewrite (Hsame _ _ _ _ _ E).
Qed.

End RegexpFacts.

(** ** The CPU vendor and model *)

Section CpuFacts.

Import SystemTools Examples.

Lemma match_chars_app (lit : string) (prev : option ascii) (r : string) :
  ∃ p, match_chars lit prev (lit +:+ r) = Some (p, r).
Proof.
  revert prev. induction lit as [|a lit IH]; intros prev; [by exists prev|].
  change (String a lit +:+ r) with (String a (lit +:+ r)). cbn [match_chars].
  rewrite Ascii.eqb_refl. apply IH.
Qed.

(** A line [<field><whitespace>:<whitespace><value>] matches the pattern
    of the field, with the value as group, when the value starts with a
    character that is not whitespace, is all in the class of the group and
    is followed by the end of the line. *)
Lemma match_field_line (field : string) (cls : ascii → bool)
    (ws ws' v rest : string) (prev : option ascii) :
  at_bol prev = true →
  ws ≠ "" → all_chars isspace ws = true → all_chars isspace ws' = true →
  match v with "" => false | String c _ => negb (isspace c) end = true →
  all_chars cls v = true → cls "010"%char = false → at_eol rest = true →
  match_items
    [Bol; Chars field; Many 1 isspace false; Chars ":"; Many 0 isspace false;
     Many 1 cls true; Many 0 isspace false; Eol]
    "" prev (field +:+ ws +:+ ":" +:+ ws' +:+ v +:+ rest)
  = Some v.
Proof.
  intros Hbol Hws Hws1 Hws2 Hv0 Hv Hnl Heol.
  cbn [match_items]. rewrite Hbol.
  destruct (match_chars_app field prev (ws +:+ ":" +:+ ws' +:+ v +:+ rest)) as [p1 ->].
  apply (many_greedy _ 1 isspace ws (":" +:+ ws' +:+ v +:+ rest) v Hws1).
  { reflexivity. }
  { destruct ws; [done|]. cbn [String.length]. lia. }
  intros p2. cbn [match_items].
  destruct (match_chars_app ":" p2 (ws' +:+ v +:+ rest)) as [p3 ->].
  apply (many_greedy _ 0 isspace ws' (v +:+ rest) v Hws2).
  { destruct v as [|c v']; [done|]. exact Hv0. }
  { lia. }
  intros p4. cbn [match_items].
  apply (many_greedy _ 1 cls v rest v Hv).
  { destruct rest as [|c rest']; [done|]. cbn [at_eol] in Heol.
    apply Ascii.eqb_eq in Heol as ->. by rewrite Hnl. }
  { destruct v; [done|]. cbn [String.length]. lia. }
  intros p5. cbn [match_items].
  by apply (many_eol v isspace rest Heol).
Qed.

Lemma all_nonspace_head (v : string) :
  v ≠ "" → all_chars nonspace v = true →
  match v with "" => false | String c _ => negb (isspace c) end = true.
Proof. destruct v as [|c v]; [done|]. cbn. by intros _ [? _]%andb_true_iff. Qed.

Lemma VENDORS_lookup (k : string) :
  VENDORS !! k =
    if decide (k = "AuthenticAMD") then Some AMD
    else if decide (k = "GenuineIntel") then Some INTEL else None.
Proof.
  unfold VENDORS, dict. cbn [fold_left fst snd].
  rewrite lookup_insert. destruct (decide ("AuthenticAMD" = k)) as [<-|Hd].
  { by rewrite decide_True. }
  rewrite decide_False by congruence.
  rewrite lookup_insert. destruct (decide ("GenuineIntel" = k)) as [<-|Hl].
  { by rewrite decide_True. }
  rewrite decide_False by congruence. apply lookup_empty.
Qed.

(** What the Linux source of [get_cpu_vendor] gives once the pattern has
    matched. *)
Lemma cpu_vendor_linux_matched (h : Host) (txt arch : string) :
  open_read h "/proc/cpuinfo" = Return txt →
  search vendor_id_regexp txt = Some arch →
  cpu_vendor_linux h = Return (VENDORS !! arch).
Proof.
  intros Hr Hs. unfold cpu_vendor_linux. rewrite Hr. cbn [mbind result_bind].
  rewrite Hs. cbn [groupdict_get mbind result_bind]. unfold getitem.
  destruct (VENDORS !! arch) as [vendor|].
  - by rewrite bool_decide_eq_true_2 by eauto.
  - by rewrite bool_decide_eq_false_2 by (by intros [? ?]).
Qed.

(** X10.  When the first line of [/proc/cpuinfo] that starts with
    [vendor_id] reads [vendor_id<whitespace>:<whitespace><id>],
    [get_cpu_vendor] returns "Intel" for the id GenuineIntel and "AMD" for
    AuthenticAMD, without running [sysctl]; any other id is passed over
    and the [sysctl] sources decide. *)
Theorem get_cpu_vendor_from_cpuinfo (h : Host) (before ws ws' id rest : string) :
  open_read h "/proc/cpuinfo"
  = Return (before +:+ "vendor_id" +:+ ws +:+ ":" +:+ ws' +:+ id +:+ rest) →
  ends_line before = true → contains before "vendor_id" = false →
  ws ≠ "" → all_chars isspace ws = true → all_chars isspace ws' = true →
  id ≠ "" → all_chars nonspace id = true → at_eol rest = true →
  (id = "GenuineIntel" → get_cpu_vendor h = Return "Intel") ∧
  (id = "AuthenticAMD" → get_cpu_vendor h = Return "AMD") ∧
  (id ≠ "GenuineIntel" → id ≠ "AuthenticAMD" → cpu_vendor_linux h = Return None).
Proof.
  intros Hr Hb Hc Hws Hws1 Hws2 Hid Hid1 Heol.
  assert (search vendor_id_regexp
            (before +:+ "vendor_id" +:+ ws +:+ ":" +:+ ws' +:+ id +:+ rest) = Some id) as Hs.
  { apply search_after_lines; [done|done|done|done|].
    intros prev Hp. apply match_field_line; try done.
    by apply all_nonspace_head. }
  pose proof (cpu_vendor_linux_matched h _ id Hr Hs) as E.
  rewrite VENDORS_lookup in E. unfold get_cpu_vendor. rewrite E.
  split; [by intros ->|]. split; [by intros ->|].
  intros Hi Ha. by rewrite !decide_False.
Qed.

(** X11.  When [/proc/cpuinfo] can be read but has no [vendor_id] (no
    [model name]), [get_cpu_vendor] ([get_cpu_model]) raises the
    [AttributeError] of using the missing match: only [IOError] is
    guarded, and [sysctl] is not run. *)
Theorem cpu_probes_without_field (h : Host) (txt : string) :
  open_read h "/proc/cpuinfo" = Return txt →
  (contains txt "vendor_id" = false →
     get_cpu_vendor h
     = Raise (AttributeError "'NoneType' object has no attribute 'groupdict'")) ∧
  (contains txt "model name" = false →
     get_cpu_model h
     = Raise (AttributeError "'NoneType' object has no attribute 'groupdict'")).
Proof.
  intros Hr. split; intros Hc.
  - unfold get_cpu_vendor, cpu_vendor_linux, search, vendor_id_regexp.
    rewrite Hr. cbn [mbind result_bind].
    by rewrite (search_from_no_literal _ "vendor_id" None txt Hc).
  - unfold get_cpu_model, cpu_model_linux, search, model_name_regexp.
    rewrite Hr. cbn [mbind result_bind].
    by rewrite (search_from_no_literal _ "model name" None txt Hc).
Qed.

Lemma try_pass_returns {A} (body : result (option A)) (classes : list exn_class) (a : A) :
  try_pass body classes = Return (Some a) → body = Return (Some a).
Proof. destruct body as [o|e]; cbn; [done|]. by case_bool_decide. Qed.

Lemma first_field_cons (c : ascii) (s : string) :
  first_field (String c s) = if Ascii.eqb c " " then "" else String c (first_field s).
Proof.
  unfold first_field. cbn [split]. destruct (Ascii.eqb c " "); [done|].
  destruct (split " " s) eqn:E; [|done].
  destruct s; cbn [split] in E; [done|].
  destruct (Ascii.eqb _ _); [done|]. by destruct (split " " s).
Qed.

Lemma first_field_no_space (s : string) : mem_ascii " " (first_field s) = false.
Proof.
  induction s as [|c s IH]; [done|]. rewrite first_field_cons.
  destruct (Ascii.eqb c " ") eqn:E; [done|]. cbn [mem_ascii].
  by rewrite Ascii.eqb_sym, E, IH.
Qed.

Lemma strip_head (s : string) :
  strip s = "" ∨ ∃ c r, strip s = String c r ∧ isspace c = false.
Proof.
  unfold strip. destruct (lstrip_head s) as [->|(c & t & -> & Hc)]; [by left|].
  destruct (rstrip_head c t Hc) as [r ->]. right. eauto.
Qed.

(** X12.  What [get_cpu_vendor] returns is "Intel", "AMD", or the first
    word of the output of [sysctl -n hw.model], which is then not empty and
    has no space. *)
Theorem get_cpu_vendor_returns (h : Host) (vendor : string) :
  get_cpu_vendor h = Return vendor →
  vendor = "Intel" ∨ vendor = "AMD" ∨
  (∃ out, run_cmd h "sysctl -n hw.model" = Return (out, 0) ∧
          vendor = first_field (strip out) ∧
          vendor ≠ "" ∧ mem_ascii " " vendor = false).
Proof.
  assert (∀ k x, getitem VENDORS k = Return x → x = "Intel" ∨ x = "AMD") as Hv.
  { intros k x. unfold getitem. rewrite VENDORS_lookup.
    repeat case_decide; intros [= <-]; auto. }
  unfold get_cpu_vendor. intros [H|[_ H]]%or_else_returns.
  - unfold cpu_vendor_linux in H. apply try_pass_returns in H.
    destruct (open_read h _) as [txt|e]; [|done].
    cbn [mbind result_bind] in H.
    destruct (groupdict_get _) as [arch|e]; [|done]. cbn [mbind result_bind] in H.
    case_bool_decide; [|done].
    destruct (getitem VENDORS arch) as [x|e] eqn:E; [|done].
    cbn in H. injection H as <-. destruct (Hv _ _ E); auto.
  - destruct (run_cmd h "sysctl -n machdep.cpu.vendor") as [[out ec]|e]; [|done].
    cbn [mbind result_bind] in H.
    destruct ((ec =? 0) && truthy (strip out)
              && bool_decide (is_Some (VENDORS !! strip out))).
    { destruct (Hv _ _ H); auto. }
    destruct (run_cmd h "sysctl -n hw.model") as [[out' ec']|e] eqn:Hr; [|done].
    cbn [mbind result_bind] in H.
    destruct (Z.eqb_spec ec' 0) as [->|]; [|done]. cbn [andb] in H.
    destruct (truthy (strip out')) eqn:Ht; [|done]. injection H as <-.
    do 2 right. exists out'. split; [done|]. split; [done|].
    split; [|apply first_field_no_space].
    destruct (strip_head out') as [E|(c & r & E & Hc)]; [by rewrite E in Ht|].
    rewrite E, first_field_cons.
    destruct (Ascii.eqb_spec c " ") as [->|]; [done|done].
Qed.

(** X13.  When the first line of [/proc/cpuinfo] that starts with
    [model name] reads [model name<whitespace>:<whitespace><model>],
    [get_cpu_model] returns the model, up to the end of the line, without
    surrounding whitespace. *)
Theorem get_cpu_model_from_cpuinfo (h : Host) (before ws ws' model rest : string) :
  open_read h "/proc/cpuinfo"
  = Return (before +:+ "model name" +:+ ws +:+ ":" +:+ ws' +:+ model +:+ rest) →
  ends_line before = true → contains before "model name" = false →
  ws ≠ "" → all_chars isspace ws = true → all_chars isspace ws' = true →
  match model with "" => false | String c _ => negb (isspace c) end = true →
  all_chars dot model = true → at_eol rest = true →
  get_cpu_model h = Return (strip model).
Proof.
  intros Hr Hb Hc Hws Hws1 Hws2 Hm0 Hm Heol.
  assert (search model_name_regexp
            (before +:+ "model name" +:+ ws +:+ ":" +:+ ws' +:+ model +:+ rest)
          = Some model) as Hs.
  { apply search_after_lines; [done|done|done|done|].
    intros prev Hp. by apply match_field_line. }
  unfold get_cpu_model, cpu_model_linux. rewrite Hr. cbn [mbind result_bind].
  by rewrite Hs.
Qed.

(** X14.  A model returned by [get_cpu_model] has no surrounding
    whitespace.  When [/proc/cpuinfo] cannot be opened the function does
    not raise by itself: it returns the stripped output of [sysctl] when
    that exits with 0, be it empty, and "UNKNOWN" otherwise. *)
Theorem get_cpu_model_stripped (h : Host) :
  (∀ model, get_cpu_model h = Return model → strip model = model) ∧
  (∀ msg out exitcode,
     open_read h "/proc/cpuinfo" = Raise (IOError msg) →
     run_cmd h "sysctl -n machdep.cpu.brand_string" = Return (out, exitcode) →
     get_cpu_model h = Return (if exitcode =? 0 then strip out else "UNKNOWN")).
Proof.
  split.
  - intros model. unfold get_cpu_model. intros [H|[_ H]]%or_else_returns.
    + unfold cpu_model_linux in H. apply try_pass_returns in H.
      destruct (open_read h _) as [txt|e]; [|done]. cbn [mbind result_bind] in H.
      destruct (groupdict_get _) as [m|e]; [|done]. cbn in H.
      injection H as <-. apply strip_idem.
    + destruct (run_cmd h _) as [[out ec]|e]; [|done]. cbn [mbind result_bind] in H.
      destruct (ec =? 0); injection H as <-; [apply strip_idem|reflexivity].
  - intros msg out ec Hr Hc. unfold get_cpu_model, cpu_model_linux.
    rewrite Hr, Hc. cbn. by destruct (ec =? 0).
Qed.

End CpuFacts.

Section CpuExamples.

Import SystemTools Examples.

Lemma get_cpu_vendor_from_cpuinfo_witness :
  get_cpu_vendor i5_laptop = Return "Intel".
Proof.
  apply (proj1 (get_cpu_vendor_from_cpuinfo i5_laptop
                  ("processor" +:+ tab +:+ ": 0" +:+ newline)
                  tab " " "GenuineIntel" cpuinfo_i5_rest
                  eq_refl eq_refl eq_refl ltac:(discriminate) eq_refl eq_refl
                  ltac:(discriminate) eq_refl eq_refl)).
  reflexivity.
Defined.

Lemma cpu_probes_without_field_witness :
  get_cpu_vendor arm_board
  = Raise (AttributeError "'NoneType' object has no attribute 'groupdict'") ∧
  get_cpu_model arm_board
  = Raise (AttributeError "'NoneType' object has no attribute 'groupdict'").
Proof.
  destruct (cpu_probes_without_field arm_board cpuinfo_arm eq_refl) as [Hv Hm].
  split; [by apply Hv|by apply Hm].
Defined.

Lemma get_cpu_vendor_returns_witness :
  ∃ out, run_cmd freebsd "sysctl -n hw.model" = Return (out, 0) ∧
         "Intel(R)" = first_field (strip out).
Proof.
  destruct (get_cpu_vendor_returns freebsd "Intel(R)" eq_refl)
    as [[=]|[[=]|(out & Hr & Hf & _)]].
  by exists out.
Defined.

Lemma get_cpu_model_from_cpuinfo_witness :
  get_cpu_model i5_laptop = Return "Intel(R) Core(TM) i5-2540M CPU @ 2.60GHz".
Proof.
  apply (get_cpu_model_from_cpuinfo i5_laptop cpuinfo_i5_before_model
           tab " " "Intel(R) Core(TM) i5-2540M CPU @ 2.60GHz  "
           (newline +:+ "stepping" +:+ tab +:+ ": 7" +:+ newline)
           eq_refl eq_refl eq_refl ltac:(discriminate) eq_refl eq_refl
           eq_refl eq_refl eq_refl).
Defined.

Lemma get_cpu_model_stripped_witness :
  get_cpu_model mac = Return "UNKNOWN" ∧
  get_cpu_model freebsd = Return "".
Proof.
  split.
  - apply (proj2 (get_cpu_model_stripped mac)
             "[Errno 2] No such file or directory: '/proc/cpuinfo'" "" 1);
      reflexivity.
  - apply (proj2 (get_cpu_model_stripped freebsd)
             "[Errno 2] No such file or directory: '/proc/cpuinfo'" "" 0);
      reflexivity.
Defined.

End CpuExamples.

Section SystemToolsMoreExamples.

Import SystemTools Examples.

Lemma get_platform_name_defined_with_shared_lib_ext_witness :
  (∃ name, get_platform_name true mac = Return name) ∧
  ¬ (∃ name, get_platform_name false freebsd = Return name).
Proof.
  split.
  - apply (proj2 (proj1 (get_platform_name_defined_with_shared_lib_ext true mac))).
    exists "dylib". reflexivity.
  - intros Hname.
    apply (proj1 (proj1 (get_platform_name_defined_with_shared_lib_ext false freebsd)))
      in Hname.
    destruct Hname as [ext Hext]. vm_compute in Hext. discriminate Hext.
Defined.

End SystemToolsMoreExamples.
